(** * Guide and Homestay models: schema validation, defaults and indexes

    The repository declares two Mongoose models, [Guide] and [Homestay].
    Each is a schema: a tree of paths, every path carrying a type and an
    options object ([required], [default], [min], [enum], ...), plus a few
    schema-level options and index declarations.

    The development is laid out as follows.
    - [Mongoose]: JavaScript values, the schema language, and what the
      document layer of the library (version 6 and later) does with a
      schema: defaults, setters, casting, validators, timestamps, and one
      collection of stored documents.
    - [TypeScript]: the types of the interfaces and of the input types.
    - [Guide] and [Homestay]: the declarations of the two source files.
    - [Statements]: the notions the properties are stated with.
    - [DocumentFacts]: lemmas on the document layer, for any schema.
    - The properties of the two models (C1 to C10), then further properties
      of the two schemas (X1 to X13): text, number and array fields, required
      paths, what a created record holds, index fields, input types. *)

From Stdlib Require Import String Ascii List ZArith QArith Bool Lia.
From stdpp Require Import gmap.

Set Warnings "-register-all".
Local Open Scope string_scope.
Local Open Scope list_scope.

Module Mongoose.

(** ** JavaScript values *)

(** A JavaScript number.  The schemas only compare numbers and store them,
    so a finite double is represented by the rational it denotes. *)
Inductive number : Type :=
| Finite (q : Q)
| Infinity
| NegInfinity
| NaN.

Definition num (z : Z) : number := Finite (inject_Z z).

(** [a >= b] on JavaScript numbers. *)
Definition geq (a b : number) : bool :=
  match a, b with
  | NaN, _ | _, NaN => false
  | Infinity, _ => true
  | _, NegInfinity => true
  | NegInfinity, _ => false
  | Finite _, Infinity => false
  | Finite x, Finite y => Qle_bool y x
  end.

(** [a < b] on JavaScript numbers. *)
Definition ltb (a b : number) : bool :=
  match a, b with
  | NaN, _ | _, NaN => false
  | _, NegInfinity => false
  | NegInfinity, _ => true
  | Infinity, _ => false
  | Finite _, Infinity => true
  | Finite x, Finite y => negb (Qle_bool y x)
  end.

Definition isNaN (n : number) : bool :=
  match n with NaN => true | _ => false end.

(** The values a document is made of.  An object keeps its properties in
    insertion order; reading a property returns the first binding.  Strings
    are sequences of code units below 256; dates are milliseconds since the
    epoch.  There is no [null]: the interfaces of the repository have no
    nullable member, a missing optional member is [undefined]. *)
Inductive value : Type :=
| VUndefined
| VNumber (n : number)
| VString (s : string)
| VDate (t : Z)
| VArray (items : list value)
| VObject (props : list (string * value)).

Fixpoint lookupProp (k : string) (props : list (string * value)) : value :=
  match props with
  | [] => VUndefined
  | (k', v) :: rest => if String.eqb k k' then v else lookupProp k rest
  end.

(** [o[k]]: [undefined] when [o] has no such property or is not an object. *)
Definition get (o : value) (k : string) : value :=
  match o with
  | VObject props => lookupProp k props
  | _ => VUndefined
  end.

(** [o[k] = v] on the property list: replaces the binding in place, or
    appends a new one. *)
Fixpoint setProp (k : string) (v : value) (props : list (string * value))
  : list (string * value) :=
  match props with
  | [] => [(k, v)]
  | (k', v') :: rest =>
      if String.eqb k k' then (k, v) :: rest else (k', v') :: setProp k v rest
  end.

Definition propsOf (o : value) : list (string * value) :=
  match o with
  | VObject props => props
  | _ => []
  end.

(** [{ ...o, [k]: v }] *)
Definition assign (o : value) (k : string) (v : value) : value :=
  VObject (setProp k v (propsOf o)).

Definition isUndefined (v : value) : bool :=
  match v with VUndefined => true | _ => false end.

(** ** String.prototype.trim *)

Definition isWhiteSpace (c : ascii) : bool :=
  let n := nat_of_ascii c in
  (Nat.leb 9 n && Nat.leb n 13) || Nat.eqb n 32 || Nat.eqb n 160.

Fixpoint trimStart (s : string) : string :=
  match s with
  | EmptyString => EmptyString
  | String c r => if isWhiteSpace c then trimStart r else s
  end.

Fixpoint trimEnd (s : string) : string :=
  match s with
  | EmptyString => EmptyString
  | String c r =>
      match trimEnd r with
      | EmptyString => if isWhiteSpace c then EmptyString else String c EmptyString
      | r' => String c r'
      end
  end.

Definition jsTrim (s : string) : string := trimEnd (trimStart s).

(** ** The schema language *)

(** The [kind] of a validation failure: the validator that failed, or a
    value that could not be cast to the declared type. *)
Inductive ErrorKind : Type :=
| Kind_required
| Kind_enum
| Kind_maxlength
| Kind_min
| Kind_user_defined
| Kind_cast.

(** One entry of [ValidationError.errors].  [message] is the message the
    schema gives for the validator, when it gives one. *)
Record ValidatorError : Type := {
  path : string;
  kind : ErrorKind;
  message : option string
}.

(** One key of a path's options object, apart from [type]. *)
Inductive SchemaTypeOption : Type :=
| required (b : bool)
| required_msg (b : bool) (msg : string)
| default (v : value)
| trim (b : bool)
| maxlength (n : nat)
| min (n : number)
| enum (values : list string)
| validate (validator : value -> bool) (msg : string).

(** The options object given to [new Schema] as second argument. *)
Record SchemaOptions : Type := {
  _id : bool;
  timestamps : bool;
  collection : option string
}.

(** The types the two models use: [String], [Number], [[String]] and a
    nested schema. *)
Inductive SchemaType : Type :=
| SchemaString
| SchemaNumber
| SchemaStringArray
| SchemaSubdocument
    (tree : list (string * SchemaType * list SchemaTypeOption))
    (options : SchemaOptions).

Definition PathDef : Type := (string * SchemaType * list SchemaTypeOption)%type.

Inductive IndexType : Type :=
| Ascending
| Descending
| Text.

Record Schema : Type := {
  tree : list PathDef;
  options : SchemaOptions;
  _indexes : list (list (string * IndexType))
}.

(** [new Schema(definition, options)].  [tree] holds the declared paths; the
    two Date paths that [timestamps: true] adds after them, [createdAt] and
    [updatedAt], are not entries of it: their casting is [timestampErrors]
    and their values are set by [stampNew] and [stampUpdate]. *)
Definition NewSchema (definition : list PathDef) (opts : SchemaOptions) : Schema :=
  {| tree := definition; options := opts; _indexes := [] |}.

(** [schema.index(fields)] adds one index declaration to the schema. *)
Definition index (s : Schema) (fields : list (string * IndexType)) : Schema :=
  {| tree := tree s; options := options s; _indexes := _indexes s ++ [fields] |}.

(** [schema.indexes()]: no path of the two models carries an index option
    of its own, so these are the declarations made with [index]. *)
Definition indexes (s : Schema) : list (list (string * IndexType)) := _indexes s.

(** [type: someSchema] *)
Definition subdocument (s : Schema) : SchemaType :=
  SchemaSubdocument (tree s) (options s).

(** ** Validators *)

(** An entry of a path's [validators] array. *)
Record Validator : Type := {
  validator : value -> bool;
  validatorKind : ErrorKind;
  validatorMessage : option string
}.

(** [checkRequired] of each type: a string must be non-empty, a number must
    be a number, an array or a subdocument must be there. *)
Definition checkRequired (t : SchemaType) (v : value) : bool :=
  match t with
  | SchemaString =>
      match v with
      | VString s => negb (String.eqb s "")
      | _ => false
      end
  | SchemaNumber =>
      match v with
      | VNumber _ => true
      | _ => false
      end
  | SchemaStringArray | SchemaSubdocument _ _ => negb (isUndefined v)
  end.

Definition requiredValidator (t : SchemaType) (msg : option string) : Validator :=
  {| validator := checkRequired t; validatorKind := Kind_required;
     validatorMessage := msg |}.

(** [v == null || v >= bound] *)
Definition minValidator (bound : number) : Validator :=
  {| validator := fun v =>
       match v with
       | VUndefined => true
       | VNumber n => geq n bound
       | _ => false
       end;
     validatorKind := Kind_min; validatorMessage := None |}.

(** [v === null || v.length <= bound] *)
Definition maxlengthValidator (bound : nat) : Validator :=
  {| validator := fun v =>
       match v with
       | VString s => Nat.leb (String.length s) bound
       | _ => false
       end;
     validatorKind := Kind_maxlength; validatorMessage := None |}.

(** [null == v || values.indexOf(v) !== -1] *)
Definition enumValidator (values : list string) : Validator :=
  {| validator := fun v =>
       match v with
       | VUndefined => true
       | VString s => existsb (String.eqb s) values
       | _ => false
       end;
     validatorKind := Kind_enum; validatorMessage := None |}.

Definition customValidator (f : value -> bool) (msg : string) : Validator :=
  {| validator := f; validatorKind := Kind_user_defined;
     validatorMessage := Some msg |}.

(** The constructor of a schema type reads the options in the order they are
    written.  [required] puts its validator in front of the array, every other
    validator is pushed at the end; an option the type has no method for
    ([min] on a string, [enum] on a number) is ignored. *)
Fixpoint addValidators (t : SchemaType) (opts : list SchemaTypeOption)
    (acc : list Validator) : list Validator :=
  match opts with
  | [] => acc
  | o :: rest =>
      addValidators t rest
        match o, t with
        | required true, _ => requiredValidator t None :: acc
        | required_msg true msg, _ => requiredValidator t (Some msg) :: acc
        | maxlength n, SchemaString => acc ++ [maxlengthValidator n]
        | enum values, SchemaString => acc ++ [enumValidator values]
        | min n, SchemaNumber => acc ++ [minValidator n]
        | validate f msg, _ => acc ++ [customValidator f msg]
        | _, _ => acc
        end
  end.

Definition validators (t : SchemaType) (opts : list SchemaTypeOption) : list Validator :=
  addValidators t opts [].

(** Runs the validators of a path in order and reports the first failure.
    On [undefined] only the required validator runs. *)
Fixpoint firstFailure (vs : list Validator) (p : string) (v : value)
  : option ValidatorError :=
  match vs with
  | [] => None
  | x :: rest =>
      let skipped :=
        isUndefined v &&
        negb match validatorKind x with Kind_required => true | _ => false end in
      if skipped || validator x v then firstFailure rest p v
      else Some {| path := p; kind := validatorKind x; message := validatorMessage x |}
  end.

(** ** Defaults, setters and casting *)

(** The last [default] among the options; an array path without one
    defaults to the empty array. *)
Fixpoint declaredDefault (opts : list SchemaTypeOption) : option value :=
  match opts with
  | [] => None
  | o :: rest =>
      match declaredDefault rest with
      | Some d => Some d
      | None => match o with default d => Some d | _ => None end
      end
  end.

Definition defaultOf (t : SchemaType) (opts : list SchemaTypeOption) : option value :=
  match declaredDefault opts, t with
  | Some d, _ => Some d
  | None, SchemaStringArray => Some (VArray [])
  | None, _ => None
  end.

Definition hasTrim (opts : list SchemaTypeOption) : bool :=
  existsb (fun o => match o with trim true => true | _ => false end) opts.

(** The setters of a path: [trim] on a string path. *)
Definition applySetters (t : SchemaType) (opts : list SchemaTypeOption) (v : value) : value :=
  match t, v with
  | SchemaString, VString s => if hasTrim opts then VString (jsTrim s) else v
  | _, _ => v
  end.

(** The value a path is given when the document is built: the supplied value
    through the setters, or the default when nothing is supplied. *)
Definition initial (t : SchemaType) (opts : list SchemaTypeOption) (raw : value) : value :=
  match raw with
  | VUndefined =>
      match defaultOf t opts with
      | Some d => d
      | None => VUndefined
      end
  | _ => applySetters t opts raw
  end.

Definition isString (v : value) : bool :=
  match v with VString _ => true | _ => false end.

(** Casting to the three leaf types; [None] is a CastError.  The input types
    of the repository give every field the JavaScript type of its path, and
    this is the part of casting that is modelled: a value of another type is
    a CastError here, also where the library would first try a conversion
    (a number to a string, a numeric string to a number). *)
Definition castLeaf (t : SchemaType) (v : value) : option value :=
  match v with
  | VUndefined => Some v
  | _ =>
      match t, v with
      | SchemaString, VString _ => Some v
      | SchemaNumber, VNumber n => if isNaN n then None else Some v
      | SchemaStringArray, VArray items =>
          if forallb isString items then Some v else None
      | SchemaStringArray, VString _ => Some (VArray [v])
      | _, _ => None
      end
  end.

(** The value stored at a path of a new document, [None] on a CastError.
    A subdocument is built path by path from the object supplied for it;
    a path left [undefined] is not a property of the result. *)
Fixpoint hydrate (t : SchemaType) (opts : list SchemaTypeOption) (raw : value)
    {struct t} : option value :=
  match t with
  | SchemaSubdocument children _ =>
      match initial t opts raw with
      | VUndefined => Some VUndefined
      | VObject props =>
          Some (VObject (flat_map
            (fun c : string * SchemaType * list SchemaTypeOption =>
               let '(k, t', o') := c in
               match hydrate t' o' (lookupProp k props) with
               | Some VUndefined | None => []
               | Some v => [(k, v)]
               end) children))
      | _ => None
      end
  | _ => castLeaf t (initial t opts raw)
  end.

(** The validation errors of one path and of the paths below it.  A value
    that does not cast is reported as such; otherwise the first failing
    validator of the path is reported; otherwise, for a subdocument, the
    errors of its own paths, named [path.child]. *)
Fixpoint validatePath (t : SchemaType) (opts : list SchemaTypeOption)
    (p : string) (raw : value) {struct t} : list ValidatorError :=
  match hydrate t opts raw with
  | None => [{| path := p; kind := Kind_cast; message := None |}]
  | Some v =>
      match firstFailure (validators t opts) p v with
      | Some e => [e]
      | None =>
          match t with
          | SchemaSubdocument children _ =>
              match initial t opts raw with
              | VObject props =>
                  flat_map
                    (fun c : string * SchemaType * list SchemaTypeOption =>
                       let '(k, t', o') := c in
                       validatePath t' o' (p ++ "." ++ k)%string (lookupProp k props))
                    children
              | _ => []
              end
          | _ => []
          end
      end
  end.

(** [new Model(input)]: the document built from [input], before it is
    validated.  Properties of [input] that are not paths of the schema are
    dropped. *)
Definition newDocument (s : Schema) (input : value) : value :=
  VObject (flat_map
    (fun c : PathDef =>
       let '(k, t, o) := c in
       match hydrate t o (get input k) with
       | Some VUndefined | None => []
       | Some v => [(k, v)]
       end) (tree s)).

(** [new Date(n)] for a number: the time value is [n] without its fraction,
    and there is none (an invalid date) when [n] is not finite or lies more
    than 8.64e15 milliseconds from the epoch. *)
Definition timeClip (n : number) : option Z :=
  match n with
  | Finite q =>
      if Qle_bool (inject_Z (-8640000000000000)) q &&
         Qle_bool q (inject_Z 8640000000000000)
      then Some (Z.quot (Qnum q) (Zpos (Qden q)))
      else None
  | _ => None
  end.

(** Casting to a date, for the two paths [timestamps: true] adds to a
    schema; [None] is a CastError.  A date is kept, a number is the time
    value of the date, and the empty string counts as no value.  Of the
    other conversions of the library none is modelled: a string that is not
    empty, an array and an object are a CastError here, also where the
    library would parse a date out of them. *)
Definition castDate (v : value) : option value :=
  match v with
  | VUndefined => Some VUndefined
  | VDate t => Some (VDate t)
  | VNumber n =>
      match timeClip n with
      | Some t => Some (VDate t)
      | None => None
      end
  | VString EmptyString => Some VUndefined
  | _ => None
  end.

Definition dateErrors (p : string) (raw : value) : list ValidatorError :=
  match castDate raw with
  | Some _ => []
  | None => [{| path := p; kind := Kind_cast; message := None |}]
  end.

(** The errors of the two paths [timestamps: true] adds to the schema after
    the declared ones, [createdAt] and [updatedAt] of type Date.  Neither is
    required, so the only error is a value that is not a date. *)
Definition timestampErrors (s : Schema) (input : value) : list ValidatorError :=
  if timestamps (options s)
  then dateErrors "createdAt" (get input "createdAt") ++
       dateErrors "updatedAt" (get input "updatedAt")
  else [].

(** [doc.validateSync()]: every error of every path, in schema order, the
    declared paths first and the two timestamps after them. *)
Definition validateSync (s : Schema) (input : value) : list ValidatorError :=
  flat_map
    (fun c : PathDef => let '(k, t, o) := c in validatePath t o k (get input k))
    (tree s) ++
  timestampErrors s input.

(** ** Models and their collection *)

(** [mongoose.model(name, schema)] *)
Record Model : Type := {
  modelName : string;
  schema : Schema
}.

Definition model (name : string) (s : Schema) : Model :=
  {| modelName := name; schema := s |}.

(** The collection behind a model: the stored documents under their
    identifiers, and the next identifier the store hands out. *)
Record Collection : Type := {
  documents : gmap nat value;
  nextId : nat
}.

Definition emptyCollection : Collection := {| documents := ∅; nextId := 0 |}.

Inductive Result : Type :=
| Saved (id : nat) (doc : value)
| ValidationError (errors : list ValidatorError)
| NotFound.

(** The [createdAt] of a new document: the date the input supplies for it,
    or the time of the write when the input supplies none. *)
Definition createdAtOf (now : Z) (input : value) : value :=
  match castDate (get input "createdAt") with
  | Some (VDate t) => VDate t
  | _ => VDate now
  end.

(** [timestamps: true] on a new document, in the hook that runs before the
    save and after validation: [createdAt] is set to the time of the write
    unless the input supplied one, and [updatedAt] is set to the value of
    [createdAt], whatever the input supplied for [updatedAt]. *)
Definition stampNew (s : Schema) (now : Z) (input : value) (doc : value) : value :=
  if timestamps (options s)
  then assign (assign doc "createdAt" (createdAtOf now input))
              "updatedAt" (createdAtOf now input)
  else doc.

(** [timestamps: true] on a later write: [updatedAt] is the time of the
    write, [createdAt] is left alone. *)
Definition stampUpdate (s : Schema) (now : Z) (doc : value) : value :=
  if timestamps (options s) then assign doc "updatedAt" (VDate now) else doc.

(** [Model.create(input)] at time [now]: build the document, validate it,
    and insert it with its timestamps when there is no error.  The input
    types leave out [createdAt] and [updatedAt]; an input that carries a
    [createdAt] all the same has it kept (see [stampNew]). *)
Definition create (M : Model) (now : Z) (input : value) (c : Collection)
  : Collection * Result :=
  match validateSync (schema M) input with
  | [] =>
      let doc := stampNew (schema M) now input (newDocument (schema M) input) in
      ({| documents := <[nextId c := doc]> (documents c); nextId := S (nextId c) |},
       Saved (nextId c) doc)
  | errors => (c, ValidationError errors)
  end.

(** Modelled from the spec: the update operation, which the repository
    performs outside the two model files.  "Update operation accepts a partial
    input; only supplied fields are validated and replaced; updatedAt is
    refreshed; createdAt is immutable", and a record that fails a validation
    is not updated.  A field is supplied when the partial input has a value
    other than [undefined] for it; a supplied field goes through the same
    setters, casting and validators as on creation. *)
Definition validateSupplied (s : Schema) (patch : value) : list ValidatorError :=
  flat_map
    (fun c : PathDef =>
       let '(k, t, o) := c in
       if isUndefined (get patch k) then [] else validatePath t o k (get patch k))
    (tree s).

(** Modelled from the spec: the update operation (see [validateSupplied]);
    this is the replacement of the supplied fields in the stored record. *)
Definition applyPatch (s : Schema) (patch : value) (doc : value) : value :=
  fold_left
    (fun (d : value) (c : PathDef) =>
       let '(k, t, o) := c in
       if isUndefined (get patch k) then d
       else match hydrate t o (get patch k) with
            | Some v => assign d k v
            | None => d
            end)
    (tree s) doc.

(** Modelled from the spec: the update operation (see [validateSupplied]) on
    the record stored under [id], at time [now]. *)
Definition update (M : Model) (now : Z) (id : nat) (patch : value) (c : Collection)
  : Collection * Result :=
  match documents c !! id with
  | None => (c, NotFound)
  | Some doc =>
      match validateSupplied (schema M) patch with
      | [] =>
          let doc' := stampUpdate (schema M) now (applyPatch (schema M) patch doc) in
          ({| documents := <[id := doc']> (documents c); nextId := nextId c |},
           Saved id doc')
      | errors => (c, ValidationError errors)
      end
  end.

(** [findById] *)
Definition findById (id : nat) (c : Collection) : option value := documents c !! id.

End Mongoose.

(** ** The TypeScript types of the inputs *)

Module TypeScript.
Import Mongoose.

(** The types that occur in the interfaces of the two files.  A member of an
    object type is its name, whether it is optional ([?]), and its type. *)
Inductive TsType : Type :=
| TsString
| TsNumber
| TsDate
| TsArray (elem : TsType)
| TsLiterals (literals : list string)
| TsObject (members : list (string * bool * TsType)).

Definition Interface : Type := list (string * bool * TsType).

Definition keyof (T : Interface) : list string := map (fun m => fst (fst m)) T.

(** [Omit<T, K>] *)
Definition Omit (T : Interface) (K : list string) : Interface :=
  filter (fun m => negb (existsb (String.eqb (fst (fst m))) K)) T.

(** [Partial<T>] *)
Definition Partial (T : Interface) : Interface :=
  map (fun m => (fst (fst m), true, snd m)) T.

(** A value of the type, with no property beyond the declared members. *)
Fixpoint hasType (t : TsType) (v : value) {struct t} : bool :=
  match t, v with
  | TsString, VString _ => true
  | TsNumber, VNumber _ => true
  | TsDate, VDate _ => true
  | TsArray elem, VArray items => forallb (hasType elem) items
  | TsLiterals literals, VString s => existsb (String.eqb s) literals
  | TsObject members, VObject props =>
      forallb (fun kv : string * value =>
                 existsb (fun m : string * bool * TsType => String.eqb (fst kv) (fst (fst m)))
                         members) props &&
      forallb (fun m : string * bool * TsType =>
                 let '(k, optional, t') := m in
                 match lookupProp k props with
                 | VUndefined => optional
                 | v' => hasType t' v'
                 end) members
  | _, _ => false
  end.

End TypeScript.

(** ** Guide.model.ts *)

Module Guide.
Import Mongoose TypeScript.

(** [type GuideAvailability] *)
Definition GuideAvailability : list string := ["available"; "busy"; "unavailable"].

Definition GuidePricing : Interface := [
  ("halfDay", false, TsNumber);
  ("fullDay", false, TsNumber);
  ("multiDay", true, TsNumber);
  ("workshop", true, TsNumber)
].

Definition GuideLocation : Interface := [
  ("district", false, TsString);
  ("state", false, TsString)
].

Definition IGuide : Interface := [
  ("name", false, TsString);
  ("bio", false, TsString);
  ("specializations", false, TsArray TsString);
  ("languages", false, TsArray TsString);
  ("experience", false, TsString);
  ("location", false, TsObject GuideLocation);
  ("pricing", false, TsObject GuidePricing);
  ("certifications", true, TsArray TsString);
  ("availability", false, TsLiterals GuideAvailability);
  ("createdAt", false, TsDate);
  ("updatedAt", false, TsDate)
].

Definition CreateGuideInput : Interface := Omit IGuide ["createdAt"; "updatedAt"].

Definition UpdateGuideInput : Interface := Partial (Omit IGuide ["createdAt"; "updatedAt"]).

Definition locationSchema : Schema := NewSchema [
  ("district", SchemaString, [required true]);
  ("state", SchemaString, [required true; default (VString "Jharkhand")])
] {| _id := false; timestamps := false; collection := None |}.

Definition pricingSchema : Schema := NewSchema [
  ("halfDay", SchemaNumber, [required true; min (num 0)]);
  ("fullDay", SchemaNumber, [required true; min (num 0)]);
  ("multiDay", SchemaNumber, [required false]);
  ("workshop", SchemaNumber, [required false])
] {| _id := false; timestamps := false; collection := None |}.

(** [(v: string[]) => v.length > 0] *)
Definition nonEmpty (v : value) : bool :=
  match v with
  | VArray items => Nat.ltb 0 (List.length items)
  | _ => false
  end.

Definition guideSchema0 : Schema := NewSchema [
  ("name", SchemaString, [required_msg true "Name is required"; trim true; maxlength 100]);
  ("bio", SchemaString, [required_msg true "Bio is required"; trim true]);
  ("specializations", SchemaStringArray,
     [required true; validate nonEmpty "At least one specialization is required"]);
  ("languages", SchemaStringArray,
     [required true; validate nonEmpty "At least one language is required"]);
  ("experience", SchemaString, [required true]);
  ("location", subdocument locationSchema, [required true]);
  ("pricing", subdocument pricingSchema, [required true]);
  ("certifications", SchemaStringArray, [required false]);
  ("availability", SchemaString, [enum ["available"; "busy"; "unavailable"]; default (VString "available")])
] {| _id := true; timestamps := true; collection := Some "guides" |}.

(** The schema after the four [guideSchema.index(...)] calls. *)
Definition guideSchema : Schema :=
  index (index (index (index guideSchema0
    [("specializations", Ascending)])
    [("availability", Ascending)])
    [("location.district", Ascending)])
    [("name", Text); ("bio", Text)].

Definition GuideModel : Model := model "Guide" guideSchema.

End Guide.

(** ** Homestay.model.ts *)

Module Homestay.
Import Mongoose TypeScript.

(** [type PropertyType] *)
Definition PropertyType : list string := ["entire"; "private"; "shared"].

(** [type HomestayStatus] *)
Definition HomestayStatus : list string := ["active"; "inactive"; "pending"].

Definition HomestayPricing : Interface := [
  ("basePrice", false, TsNumber);
  ("cleaningFee", true, TsNumber);
  ("weekendPrice", true, TsNumber)
].

Definition HomestayCapacity : Interface := [
  ("guests", false, TsNumber);
  ("bedrooms", false, TsNumber);
  ("beds", false, TsNumber);
  ("bathrooms", false, TsNumber)
].

Definition HomestayLocation : Interface := [
  ("address", false, TsString);
  ("district", false, TsString);
  ("state", false, TsString);
  ("coordinates", true, TsObject [("lat", false, TsNumber); ("lng", false, TsNumber)])
].

Definition IHomestay : Interface := [
  ("title", false, TsString);
  ("description", false, TsString);
  ("propertyType", false, TsLiterals PropertyType);
  ("location", false, TsObject HomestayLocation);
  ("pricing", false, TsObject HomestayPricing);
  ("capacity", false, TsObject HomestayCapacity);
  ("amenities", false, TsArray TsString);
  ("houseRules", true, TsArray TsString);
  ("images", false, TsArray TsString);
  ("status", false, TsLiterals HomestayStatus);
  ("createdAt", false, TsDate);
  ("updatedAt", false, TsDate)
].

Definition CreateHomestayInput : Interface :=
  Omit IHomestay ["status"; "createdAt"; "updatedAt"].

Definition UpdateHomestayInput : Interface :=
  Partial (Omit IHomestay ["createdAt"; "updatedAt"]).

Definition coordinatesSchema : Schema := NewSchema [
  ("lat", SchemaNumber, [required true]);
  ("lng", SchemaNumber, [required true])
] {| _id := false; timestamps := false; collection := None |}.

Definition locationSchema : Schema := NewSchema [
  ("address", SchemaString, [required true]);
  ("district", SchemaString, [required true]);
  ("state", SchemaString, [required true; default (VString "Jharkhand")]);
  ("coordinates", subdocument coordinatesSchema, [required false])
] {| _id := false; timestamps := false; collection := None |}.

Definition pricingSchema : Schema := NewSchema [
  ("basePrice", SchemaNumber, [required true; min (num 100)]);
  ("cleaningFee", SchemaNumber, [required false]);
  ("weekendPrice", SchemaNumber, [required false])
] {| _id := false; timestamps := false; collection := None |}.

Definition capacitySchema : Schema := NewSchema [
  ("guests", SchemaNumber, [required true; min (num 1)]);
  ("bedrooms", SchemaNumber, [required true; min (num 0)]);
  ("beds", SchemaNumber, [required true; min (num 1)]);
  ("bathrooms", SchemaNumber, [required true; min (num 0)])
] {| _id := false; timestamps := false; collection := None |}.

Definition homestaySchema0 : Schema := NewSchema [
  ("title", SchemaString, [required_msg true "Title is required"; trim true; maxlength 200]);
  ("description", SchemaString, [required_msg true "Description is required"; trim true]);
  ("propertyType", SchemaString,
     [enum ["entire"; "private"; "shared"]; required true; default (VString "entire")]);
  ("location", subdocument locationSchema, [required true]);
  ("pricing", subdocument pricingSchema, [required true]);
  ("capacity", subdocument capacitySchema, [required true]);
  ("amenities", SchemaStringArray, [default (VArray [])]);
  ("houseRules", SchemaStringArray, [required false]);
  ("images", SchemaStringArray, [default (VArray [])]);
  ("status", SchemaString, [enum ["active"; "inactive"; "pending"]; default (VString "active")])
] {| _id := true; timestamps := true; collection := Some "homestays" |}.

(** The schema after the four [homestaySchema.index(...)] calls. *)
Definition homestaySchema : Schema :=
  index (index (index (index homestaySchema0
    [("location.district", Ascending)])
    [("pricing.basePrice", Ascending)])
    [("status", Ascending)])
    [("title", Text); ("description", Text)].

Definition HomestayModel : Model := model "Homestay" homestaySchema.

End Homestay.

(** * Notions used in the statements *)

Module Statements.
Import Mongoose.

(** ** Paths of a schema *)

Definition keyOf (c : PathDef) : string := fst (fst c).

Definition keysOf (l : list PathDef) : list string := map keyOf l.

(** No path of [l] is named [k]. *)
Definition otherKeys (k : string) (l : list PathDef) : Prop :=
  Forall (fun c => keyOf c <> k) l.

(** Errors of the paths [l] read from the object [o], with names under
    the prefix [pre]. *)
Definition validatePaths (pre : string) (l : list PathDef) (o : value) : list ValidatorError :=
  flat_map (fun c : PathDef =>
              let '(k, t, op) := c in validatePath t op (pre ++ k)%string (get o k)) l.

(** The properties of a document built from the paths [l], each read through
    [src]. *)
Definition hydrateProps (src : string -> value) (l : list PathDef) : list (string * value) :=
  flat_map (fun c : PathDef =>
              let '(k, t, o) := c in
              match hydrate t o (src k) with
              | Some VUndefined | None => []
              | Some v => [(k, v)]
              end) l.

(** What a path holds after [hydrate]: nothing on a CastError. *)
Definition stored (r : option value) : value :=
  match r with
  | Some v => v
  | None => VUndefined
  end.

(** One step of [applyPatch]. *)
Definition patchStep (patch : value) (d : value) (c : PathDef) : value :=
  let '(k, t, o) := c in
  if isUndefined (get patch k) then d
  else match hydrate t o (get patch k) with
       | Some v => assign d k v
       | None => d
       end.

(** The bound of the last [min] among the options of a path. *)
Fixpoint declaredMin (opts : list SchemaTypeOption) : option number :=
  match opts with
  | [] => None
  | o :: rest =>
      match declaredMin rest with
      | Some b => Some b
      | None => match o with min b => Some b | _ => None end
      end
  end.

(** The lower bound the capacity schema declares for the path [k]. *)
Definition capacityBound (k : string) : option number :=
  match find (fun c : PathDef => String.eqb k (keyOf c)) (tree Homestay.capacitySchema) with
  | Some (_, _, opts) => declaredMin opts
  | None => None
  end.

(** ** Inputs *)

(** [{ ...o, [k1]: { ...o[k1], [k2]: v } }] *)
Definition assignIn (o : value) (k1 k2 : string) (v : value) : value :=
  assign o k1 (assign (get o k1) k2 v).

(** The input [d] with [pricing.basePrice] set to [x]. *)
Definition withBasePrice (x : number) (d : value) : value :=
  assignIn d "pricing" "basePrice" (VNumber x).

(** The input [d] with [capacity.guests] set to [x]. *)
Definition withGuests (x : number) (d : value) : value :=
  assignIn d "capacity" "guests" (VNumber x).

(** [{ lat: a, lng: b }] *)
Definition coordinates (a b : number) : value :=
  VObject [("lat", VNumber a); ("lng", VNumber b)].

(** The partial input [{ status: s }]. *)
Definition statusPatch (s : string) : value := VObject [("status", VString s)].

(** The string [s] is none of [values]. *)
Definition outside (s : string) (values : list string) : Prop :=
  existsb (String.eqb s) values = false.

(** ** Outcomes *)

(** An operation is rejected with error [e] when it returns a validation
    error that lists [e] and leaves the collection as it was. *)
Definition rejectedWith (r : Collection * Result) (c : Collection) (e : ValidatorError) : Prop :=
  exists errors, r = (c, ValidationError errors) /\ In e errors.

Definition requiredError (p : string) : ValidatorError :=
  {| path := p; kind := Kind_required; message := None |}.

Definition minError (p : string) : ValidatorError :=
  {| path := p; kind := Kind_min; message := None |}.

Definition enumError (p : string) : ValidatorError :=
  {| path := p; kind := Kind_enum; message := None |}.

(** The error an enumerated path reports for a string that is none of its
    values: the enum error, or on a required path the required error when
    the string is empty. *)
Definition enumRejection (p : string) (isRequired : bool) (s : string) : ValidatorError :=
  if isRequired && String.eqb s "" then requiredError p else enumError p.

(** The error of the validator the Guide schema puts on its two required
    arrays. *)
Definition emptyCollectionError (p msg : string) : ValidatorError :=
  {| path := p; kind := Kind_user_defined; message := Some msg |}.

Definition requiredErrorWith (p msg : string) : ValidatorError :=
  {| path := p; kind := Kind_required; message := Some msg |}.

Definition maxlengthError (p : string) : ValidatorError :=
  {| path := p; kind := Kind_maxlength; message := None |}.

Definition castError (p : string) : ValidatorError :=
  {| path := p; kind := Kind_cast; message := None |}.

(** The errors of a required text path for the string [s]: [s] is trimmed
    first when the path has [trim], an empty result is reported as missing,
    and one longer than the limit, when there is a limit, as too long. *)
Definition textErrors (p : string) (msg : option string) (trimmed : bool)
    (limit : option nat) (s : string) : list ValidatorError :=
  let s' := if trimmed then jsTrim s else s in
  if String.eqb s' "" then [{| path := p; kind := Kind_required; message := msg |}]
  else match limit with
       | Some n => if Nat.leb (String.length s') n then [] else [maxlengthError p]
       | None => []
       end.


(** The message the Guide schema gives for a missing [name] or [bio]. *)
Definition guideRequiredMessage (k : string) : option string :=
  if String.eqb k "name" then Some "Name is required"
  else if String.eqb k "bio" then Some "Bio is required"
  else None.

(** The message the Homestay schema gives for a missing [title] or
    [description]. *)
Definition homestayRequiredMessage (k : string) : option string :=
  if String.eqb k "title" then Some "Title is required"
  else if String.eqb k "description" then Some "Description is required"
  else None.

(** The errors of a number path with a lower bound, and of one without. *)
Definition boundedNumberErrors (p : string) (bound n : number) : list ValidatorError :=
  if isNaN n then [castError p] else if geq n bound then [] else [minError p].

Definition freeNumberErrors (p : string) (n : number) : list ValidatorError :=
  if isNaN n then [castError p] else [].

(** The array of the strings [l]. *)
Definition stringArray (l : list string) : value := VArray (map VString l).

(** The value has the JavaScript type of a leaf path: a string, a number,
    an array of strings. *)
Definition leafTyped (t : SchemaType) (v : value) : bool :=
  match t, v with
  | SchemaString, VString _ => true
  | SchemaNumber, VNumber _ => true
  | SchemaStringArray, VArray items => forallb isString items
  | _, _ => false
  end.




(** The segments of a dotted path name: ["location.district"] is
    [location] then [district]. *)
Fixpoint splitDots (acc : string) (s : string) : list string :=
  match s with
  | EmptyString => [acc]
  | String c r =>
      if Ascii.eqb c "."%char then acc :: splitDots "" r
      else splitDots (acc ++ String c "")%string r
  end.

Definition findPath (k : string) (l : list PathDef) : option PathDef :=
  find (fun c : PathDef => String.eqb k (keyOf c)) l.

(** The type of the path reached from [t] by the given segments. *)
Fixpoint typeAt (t : SchemaType) (segments : list string) : option SchemaType :=
  match segments with
  | [] => Some t
  | k :: rest =>
      match t with
      | SchemaSubdocument children _ =>
          match findPath k children with
          | Some (_, t', _) => typeAt t' rest
          | None => None
          end
      | _ => None
      end
  end.

(** The type of the path of the schema that an index field names. *)
Definition indexedType (s : Schema) (field : string) : option SchemaType :=
  typeAt (SchemaSubdocument (tree s) (options s)) (splitDots "" field).

Definition isLeaf (t : SchemaType) : bool :=
  match t with
  | SchemaSubdocument _ _ => false
  | _ => true
  end.

(** An index field names a leaf path of the schema, a string when the
    index is a text index. *)
Definition indexFieldOk (s : Schema) (f : string * IndexType) : bool :=
  match indexedType s (fst f), snd f with
  | Some SchemaString, Text => true
  | Some t, Ascending | Some t, Descending => isLeaf t
  | _, _ => false
  end.

(** ** Histories *)

(** [history M T c]: the collection [c] is what a sequence of creations and
    updates through the model [M] leaves, starting from the empty collection,
    when the clock read at each write is not behind the previous reading;
    [T] is the last reading. *)
Inductive history (M : Model) : Z -> Collection -> Prop :=
| history_empty (T : Z) : history M T emptyCollection
| history_create (T : Z) (c : Collection) (now : Z) (input : value) :
    history M T c -> (T <= now)%Z ->
    history M now (fst (create M now input c))
| history_update (T : Z) (c : Collection) (now : Z) (id : nat) (patch : value) :
    history M T c -> (T <= now)%Z ->
    history M now (fst (update M now id patch c)).

(** [clockHistory M T c]: a history in which, besides, no creation input
    carries a [createdAt], as the creation input types have it, so that every
    timestamp of [c] is a reading of the clock. *)
Inductive clockHistory (M : Model) : Z -> Collection -> Prop :=
| clockHistory_empty (T : Z) : clockHistory M T emptyCollection
| clockHistory_create (T : Z) (c : Collection) (now : Z) (input : value) :
    clockHistory M T c -> (T <= now)%Z ->
    get input "createdAt" = VUndefined ->
    clockHistory M now (fst (create M now input c))
| clockHistory_update (T : Z) (c : Collection) (now : Z) (id : nat) (patch : value) :
    clockHistory M T c -> (T <= now)%Z ->
    clockHistory M now (fst (update M now id patch c)).

(** ** Sample inputs and records *)

(** A Guide input that leaves every defaulted path out. *)
Definition sampleGuide : value := VObject [
  ("name", VString "Asha Munda");
  ("bio", VString "Forest walks around Netarhat");
  ("specializations", VArray [VString "trekking"]);
  ("languages", VArray [VString "Hindi"; VString "Mundari"]);
  ("experience", VString "6 years");
  ("location", VObject [("district", VString "Latehar")]);
  ("pricing", VObject [("halfDay", VNumber (num 800)); ("fullDay", VNumber (num 1500))])
].

(** An input of type [CreateGuideInput] with a negative [multiDay]. *)
Definition guideNegativeMultiDay : value := VObject [
  ("name", VString "Asha Munda");
  ("bio", VString "Forest walks around Netarhat");
  ("specializations", VArray [VString "trekking"]);
  ("languages", VArray [VString "Hindi"]);
  ("experience", VString "6 years");
  ("location", VObject [("district", VString "Latehar"); ("state", VString "Jharkhand")]);
  ("pricing", VObject [("halfDay", VNumber (num 800)); ("fullDay", VNumber (num 1500));
                       ("multiDay", VNumber (num (-7)))]);
  ("availability", VString "available")
].

Definition guideNegativeHalfDay : value := VObject [
  ("pricing", VObject [("halfDay", VNumber (num (-5))); ("fullDay", VNumber (num 1500))])
].

Definition guideWithoutLanguages : value := VObject [
  ("name", VString "Asha Munda");
  ("specializations", VArray [])
].

(** The record stored for [sampleGuide] at time 1000, and the collection
    that holds it. *)
Definition storedSampleGuide : value :=
  stampNew (schema Guide.GuideModel) 1000 sampleGuide
    (newDocument (schema Guide.GuideModel) sampleGuide).

Definition afterSampleGuide : Collection :=
  fst (create Guide.GuideModel 1000 sampleGuide emptyCollection).

Definition busyPatch : value := VObject [("availability", VString "busy")].

(** [storedSampleGuide] after the update [busyPatch] at time 2000. *)
Definition updatedSampleGuide : value :=
  stampUpdate (schema Guide.GuideModel) 2000
    (applyPatch (schema Guide.GuideModel) busyPatch storedSampleGuide).

(** [sampleGuide] with a [createdAt] of its own, later than the time 1000 at
    which it is created below, and the collection that holds its record. *)
Definition guideDatedAhead : value := assign sampleGuide "createdAt" (VDate 5000).

Definition afterGuideDatedAhead : Collection :=
  fst (create Guide.GuideModel 1000 guideDatedAhead emptyCollection).

(** A Homestay input that leaves every defaulted path out. *)
Definition sampleHomestay : value := VObject [
  ("title", VString "Hillside cottage");
  ("description", VString "Two rooms above the valley");
  ("location", VObject [("address", VString "Main road"); ("district", VString "Ranchi")]);
  ("pricing", VObject [("basePrice", VNumber (num 1200))]);
  ("capacity", VObject [("guests", VNumber (num 4)); ("bedrooms", VNumber (num 2));
                        ("beds", VNumber (num 3)); ("bathrooms", VNumber (num 1))])
].

Definition storedSampleHomestay : value :=
  stampNew (schema Homestay.HomestayModel) 1000 sampleHomestay
    (newDocument (schema Homestay.HomestayModel) sampleHomestay).

Definition homestayNoBeds : value := VObject [
  ("capacity", VObject [("guests", VNumber (num 2)); ("bedrooms", VNumber (num 1));
                        ("beds", VNumber (num 0)); ("bathrooms", VNumber (num 1))])
].

(** An input of type [CreateHomestayInput] with negative fees and with
    coordinates that are no latitude and no longitude. *)
Definition homestayOutOfRange : value := VObject [
  ("title", VString "Hillside cottage");
  ("description", VString "Two rooms above the valley");
  ("propertyType", VString "entire");
  ("location", VObject [("address", VString "Main road"); ("district", VString "Ranchi");
                        ("state", VString "Jharkhand");
                        ("coordinates", VObject [("lat", VNumber (num 1000));
                                                 ("lng", VNumber (num (-1000)))])]);
  ("pricing", VObject [("basePrice", VNumber (num 1200));
                       ("cleaningFee", VNumber (num (-50)));
                       ("weekendPrice", VNumber (num (-1)))]);
  ("capacity", VObject [("guests", VNumber (num 4)); ("bedrooms", VNumber (num 2));
                        ("beds", VNumber (num 3)); ("bathrooms", VNumber (num 1))]);
  ("amenities", VArray []);
  ("images", VArray [])
].

(** A Homestay input of type [CreateHomestayInput]. *)
Definition typedHomestay : value := VObject [
  ("title", VString "Hillside cottage");
  ("description", VString "Two rooms above the valley");
  ("propertyType", VString "private");
  ("location", VObject [("address", VString "Main road"); ("district", VString "Ranchi");
                        ("state", VString "Jharkhand")]);
  ("pricing", VObject [("basePrice", VNumber (num 1200))]);
  ("capacity", VObject [("guests", VNumber (num 4)); ("bedrooms", VNumber (num 2));
                        ("beds", VNumber (num 3)); ("bathrooms", VNumber (num 1))]);
  ("amenities", VArray [VString "wifi"]);
  ("images", VArray [])
].

(** [typedHomestay] with coordinates that have no [lng]. *)
Definition homestayHalfCoordinates : value :=
  assignIn typedHomestay "location" "coordinates" (VObject [("lat", VNumber (num 23))]).

(** [typedHomestay] with the empty string as [propertyType]. *)
Definition homestayEmptyPropertyType : value :=
  assign typedHomestay "propertyType" (VString "").

Definition storedTypedHomestay : value :=
  stampNew (schema Homestay.HomestayModel) 1000 typedHomestay
    (newDocument (schema Homestay.HomestayModel) typedHomestay).

Definition afterTypedHomestay : Collection :=
  fst (create Homestay.HomestayModel 1000 typedHomestay emptyCollection).

End Statements.

(** * Properties of the document layer *)

Module DocumentFacts.
Import Mongoose Statements.

(** ** Objects *)

Lemma lookupProp_setProp_eq (k : string) (v : value) (props : list (string * value)) :
  lookupProp k (setProp k v props) = v.
Proof.
  induction props as [|[k' v'] rest IH]; simpl.
  - now rewrite String.eqb_refl.
  - destruct (String.eqb k k') eqn:E; simpl.
    + now rewrite String.eqb_refl.
    + now rewrite E.
Qed.

Lemma lookupProp_setProp_ne (k k' : string) (v : value) (props : list (string * value)) :
  k <> k' -> lookupProp k' (setProp k v props) = lookupProp k' props.
Proof.
  intros Hne. induction props as [|[k0 v0] rest IH]; simpl.
  - destruct (String.eqb k' k) eqn:E; [|reflexivity].
    apply String.eqb_eq in E. congruence.
  - destruct (String.eqb k k0) eqn:E; simpl.
    + apply String.eqb_eq in E. subst k0.
      destruct (String.eqb k' k) eqn:E'; [|reflexivity].
      apply String.eqb_eq in E'. congruence.
    + now rewrite IH.
Qed.

Lemma get_assign_eq (o : value) (k : string) (v : value) :
  get (assign o k v) k = v.
Proof. apply lookupProp_setProp_eq. Qed.

Lemma get_assign_ne (o : value) (k k' : string) (v : value) :
  k <> k' -> get (assign o k v) k' = lookupProp k' (propsOf o).
Proof. intros Hne. now apply lookupProp_setProp_ne. Qed.

Lemma get_propsOf (o : value) (k : string) : lookupProp k (propsOf o) = get o k.
Proof. now destruct o. Qed.

(** ** Numbers *)

Lemma ltb_not_geq (n b : number) : ltb n b = true -> geq n b = false.
Proof.
  destruct n, b; simpl; try discriminate; try reflexivity.
  now intros ->%negb_true_iff.
Qed.

Lemma ltb_not_NaN (n b : number) : ltb n b = true -> isNaN n = false.
Proof. destruct n, b; simpl; congruence. Qed.

Lemma geq_not_NaN (n b : number) : geq n b = true -> isNaN n = false.
Proof. destruct n, b; simpl; congruence. Qed.

(** ** Errors of a schema, path by path *)

Lemma validateSync_path (s : Schema) (input : value) (k : string) (t : SchemaType)
    (o : list SchemaTypeOption) (e : ValidatorError) :
  In (k, t, o) (tree s) ->
  In e (validatePath t o k (get input k)) ->
  In e (validateSync s input).
Proof.
  intros Hin He. unfold validateSync. apply in_or_app. left. apply in_flat_map.
  exists (k, t, o). now split.
Qed.

Lemma validateSupplied_path (s : Schema) (patch : value) (k : string) (t : SchemaType)
    (o : list SchemaTypeOption) (e : ValidatorError) :
  In (k, t, o) (tree s) ->
  get patch k <> VUndefined ->
  In e (validatePath t o k (get patch k)) ->
  In e (validateSupplied s patch).
Proof.
  intros Hin Hsup He. unfold validateSupplied. apply in_flat_map.
  exists (k, t, o). split; [assumption|].
  destruct (get patch k); simpl; try assumption. congruence.
Qed.

Lemma validateSync_nil_path (s : Schema) (input : value) (k : string) (t : SchemaType)
    (o : list SchemaTypeOption) :
  validateSync s input = [] ->
  In (k, t, o) (tree s) ->
  validatePath t o k (get input k) = [].
Proof.
  intros Hnil Hin. destruct (validatePath t o k (get input k)) as [|e l] eqn:E; [reflexivity|].
  assert (In e (validateSync s input)) as H.
  { eapply validateSync_path; [eassumption|]. rewrite E. now left. }
  rewrite Hnil in H. destruct H.
Qed.

(** The errors below a subdocument path that holds an object and has no
    validator besides [required]. *)
Lemma validatePath_object (children : list PathDef) (so : SchemaOptions) (b : bool)
    (p : string) (props : list (string * value)) :
  validatePath (SchemaSubdocument children so) [required b] p (VObject props) =
  flat_map (fun c : PathDef =>
              let '(k, t, o) := c in
              validatePath t o (p ++ "." ++ k)%string (lookupProp k props)) children.
Proof. destruct b; reflexivity. Qed.

Lemma validatePath_child (children : list PathDef) (so : SchemaOptions) (b : bool)
    (p : string) (props : list (string * value)) (k : string) (t : SchemaType)
    (o : list SchemaTypeOption) (e : ValidatorError) :
  In (k, t, o) children ->
  In e (validatePath t o (p ++ "." ++ k)%string (lookupProp k props)) ->
  In e (validatePath (SchemaSubdocument children so) [required b] p (VObject props)).
Proof.
  intros Hin He. rewrite validatePath_object. apply in_flat_map.
  exists (k, t, o). now split.
Qed.

(** A number below the bound of a [min] path is reported. *)
Lemma validatePath_below_min (b : bool) (bound n : number) (p : string) :
  ltb n bound = true ->
  validatePath SchemaNumber [required b; min bound] p (VNumber n) =
  [{| path := p; kind := Kind_min; message := None |}].
Proof.
  intros Hlt. pose proof (ltb_not_geq _ _ Hlt) as Hge.
  pose proof (ltb_not_NaN _ _ Hlt) as Hnan.
  destruct b; simpl; rewrite Hnan; simpl; now rewrite Hge.
Qed.

(** A number at or above the bound passes. *)
Lemma validatePath_at_least_min (b : bool) (bound n : number) (p : string) :
  geq n bound = true ->
  validatePath SchemaNumber [required b; min bound] p (VNumber n) = [].
Proof.
  intros Hge. pose proof (geq_not_NaN _ _ Hge) as Hnan.
  destruct b; simpl; rewrite Hnan; simpl; now rewrite Hge.
Qed.

(** ** Replacing one property of the input *)

Lemma flat_map_agree {A B : Type} (f g : A -> list B) (l : list A) :
  Forall (fun a => f a = g a) l -> flat_map f l = flat_map g l.
Proof.
  induction 1 as [|a l Ha _ IH]; simpl; [reflexivity|]. now rewrite Ha, IH.
Qed.

Lemma validateSync_validatePaths (s : Schema) (input : value) :
  validateSync s input = validatePaths "" (tree s) input ++ timestampErrors s input.
Proof. reflexivity. Qed.

(** The errors of the two timestamps depend on the input's [createdAt] and
    [updatedAt] alone. *)
Lemma timestampErrors_assign (s : Schema) (d : value) (k : string) (v : value) :
  k <> "createdAt" -> k <> "updatedAt" ->
  timestampErrors s (assign d k v) = timestampErrors s d.
Proof.
  intros Hc Hu. unfold timestampErrors.
  rewrite !get_assign_ne by congruence. now rewrite !get_propsOf.
Qed.

Lemma append_assoc (a b c : string) : ((a ++ b) ++ c = a ++ b ++ c)%string.
Proof.
  induction a as [|x a IH]; [reflexivity|].
  change (String x ((a ++ b) ++ c) = String x (a ++ b ++ c))%string.
  now rewrite IH.
Qed.

Lemma validatePath_object_paths (children : list PathDef) (so : SchemaOptions) (b : bool)
    (p : string) (props : list (string * value)) :
  validatePath (SchemaSubdocument children so) [required b] p (VObject props) =
  validatePaths (p ++ ".") children (VObject props).
Proof.
  rewrite validatePath_object. unfold validatePaths. apply flat_map_agree.
  apply List.Forall_forall. intros [[k t] o] _. simpl.
  now rewrite append_assoc.
Qed.

Lemma validatePaths_assign_other (pre : string) (l : list PathDef) (o : value)
    (k : string) (v : value) :
  otherKeys k l ->
  validatePaths pre l (assign o k v) = validatePaths pre l o.
Proof.
  intros Hl. unfold validatePaths. apply flat_map_agree.
  eapply List.Forall_impl; [|exact Hl]. intros [[k' t] op] Hne. unfold keyOf in Hne. simpl in Hne.
  cbv beta iota. rewrite get_assign_ne by congruence. now rewrite get_propsOf.
Qed.

(** Replacing the property [k] of [o] changes the errors of the path [k]
    alone. *)
Lemma validatePaths_assign (pre : string) (l1 l2 : list PathDef) (k : string)
    (t : SchemaType) (op : list SchemaTypeOption) (o : value) (v : value) :
  otherKeys k l1 -> otherKeys k l2 ->
  validatePaths pre (l1 ++ (k, t, op) :: l2) (assign o k v) =
  validatePaths pre l1 o ++ validatePath t op (pre ++ k)%string v ++ validatePaths pre l2 o.
Proof.
  intros H1 H2. unfold validatePaths at 1. rewrite flat_map_app.
  cbn [flat_map]. rewrite get_assign_eq. f_equal; [|f_equal].
  - now apply validatePaths_assign_other.
  - now apply validatePaths_assign_other.
Qed.

Lemma app_unit_middle {A : Type} (l1 l2 : list A) (a b : A) :
  l1 ++ a :: l2 = [b] -> l1 = [] /\ l2 = [].
Proof.
  intros H. apply (f_equal (@List.length A)) in H.
  rewrite length_app in H. simpl in H.
  destruct l1, l2; simpl in H; try lia. auto.
Qed.

(** ** Reading a new document *)

Lemma newDocument_hydrateProps (s : Schema) (input : value) :
  newDocument s input = VObject (hydrateProps (get input) (tree s)).
Proof. reflexivity. Qed.

Lemma hydrate_object (children : list PathDef) (so : SchemaOptions) (b : bool)
    (props : list (string * value)) :
  hydrate (SchemaSubdocument children so) [required b] (VObject props) =
  Some (VObject (hydrateProps (fun k => lookupProp k props) children)).
Proof. destruct b; reflexivity. Qed.

Lemma lookup_hydrateProps_absent (src : string -> value) (l : list PathDef) (k : string) :
  ~ In k (keysOf l) -> lookupProp k (hydrateProps src l) = VUndefined.
Proof.
  induction l as [|[[k' t'] o'] l IH]; simpl; [reflexivity|].
  intros Hk. unfold keyOf in Hk; simpl in Hk.
  assert (String.eqb k k' = false) as E.
  { apply String.eqb_neq. intros ->. apply Hk. now left. }
  assert (lookupProp k (hydrateProps src l) = VUndefined) as IH'.
  { apply IH. intros H. apply Hk. now right. }
  destruct (hydrate t' o' (src k')) as [[]|]; simpl; rewrite ?E; exact IH'.
Qed.

Lemma lookup_hydrateProps (src : string -> value) (l : list PathDef) (k : string)
    (t : SchemaType) (o : list SchemaTypeOption) :
  List.NoDup (keysOf l) ->
  In (k, t, o) l ->
  lookupProp k (hydrateProps src l) = stored (hydrate t o (src k)).
Proof.
  induction l as [|[[k' t'] o'] l IH]; simpl; [intros _ []|].
  intros Hnd Hin. apply NoDup_cons_iff in Hnd as [Hk' Hnd].
  unfold keyOf in Hk'; simpl in Hk'.
  destruct Hin as [[= -> -> ->] | Hin].
  - pose proof (lookup_hydrateProps_absent src l k Hk') as Habs.
    destruct (hydrate t o (src k)) as [[]|]; simpl;
      rewrite ?String.eqb_refl; try reflexivity; exact Habs.
  - assert (String.eqb k k' = false) as E.
    { apply String.eqb_neq. intros ->. apply Hk'.
      change k' with (keyOf (k', t, o)). now apply in_map. }
    specialize (IH Hnd Hin).
    destruct (hydrate t' o' (src k')) as [[]|]; simpl; rewrite ?E; exact IH.
Qed.

Lemma get_stampNew (s : Schema) (now : Z) (input doc : value) (k : string) :
  k <> "createdAt" -> k <> "updatedAt" ->
  get (stampNew s now input doc) k = get doc k.
Proof.
  intros Hc Hu. unfold stampNew. destruct (timestamps (options s)); [|reflexivity].
  rewrite get_assign_ne by congruence. simpl.
  rewrite lookupProp_setProp_ne by congruence. apply get_propsOf.
Qed.

Lemma get_stampUpdate (s : Schema) (now : Z) (doc : value) (k : string) :
  k <> "updatedAt" ->
  get (stampUpdate s now doc) k = get doc k.
Proof.
  intros Hu. unfold stampUpdate. destruct (timestamps (options s)); [|reflexivity].
  rewrite get_assign_ne by congruence. apply get_propsOf.
Qed.

(** ** Replacing one property of a subdocument of the input *)

Lemma validateSync_assignIn (s : Schema) (d : value) (l1 l2 m1 m2 : list PathDef)
    (k1 k2 : string) (so : SchemaOptions) (b : bool) (t : SchemaType)
    (op : list SchemaTypeOption) (v : value) :
  tree s = l1 ++ (k1, SchemaSubdocument (m1 ++ (k2, t, op) :: m2) so, [required b]) :: l2 ->
  otherKeys k1 l1 -> otherKeys k1 l2 -> otherKeys k2 m1 -> otherKeys k2 m2 ->
  k1 <> "createdAt" -> k1 <> "updatedAt" ->
  validateSync s (assignIn d k1 k2 v) =
  (validatePaths "" l1 d ++
   (validatePaths (k1 ++ ".") m1 (get d k1) ++
    validatePath t op (k1 ++ "." ++ k2)%string v ++
    validatePaths (k1 ++ ".") m2 (get d k1)) ++
   validatePaths "" l2 d) ++
  timestampErrors s d.
Proof.
  intros Htree Hl1 Hl2 Hm1 Hm2 Hc Hu.
  rewrite validateSync_validatePaths, Htree. unfold assignIn.
  rewrite timestampErrors_assign by assumption.
  rewrite validatePaths_assign by assumption.
  f_equal. f_equal. f_equal. unfold assign at 1.
  change ("" ++ k1)%string with k1.
  rewrite validatePath_object_paths.
  change (VObject (setProp k2 v (propsOf (get d k1)))) with (assign (get d k1) k2 v).
  rewrite validatePaths_assign by assumption.
  now rewrite append_assoc.
Qed.

(** The value read back at [k1.k2] from the document created from an input
    whose [k1.k2] was set to [v]. *)
Lemma stored_assignIn (s : Schema) (now : Z) (d : value) (children : list PathDef)
    (k1 k2 : string) (so : SchemaOptions) (b : bool) (t : SchemaType)
    (op : list SchemaTypeOption) (v : value) :
  List.NoDup (keysOf (tree s)) ->
  In (k1, SchemaSubdocument children so, [required b]) (tree s) ->
  List.NoDup (keysOf children) ->
  In (k2, t, op) children ->
  k1 <> "createdAt" -> k1 <> "updatedAt" ->
  get (get (stampNew s now (assignIn d k1 k2 v)
              (newDocument s (assignIn d k1 k2 v))) k1) k2 =
  stored (hydrate t op v).
Proof.
  intros Hnd Hin Hndc Hinc Hc Hu.
  rewrite get_stampNew by assumption.
  rewrite newDocument_hydrateProps. simpl get at 2.
  rewrite (lookup_hydrateProps _ _ _ _ _ Hnd Hin).
  unfold assignIn. rewrite get_assign_eq. unfold assign.
  rewrite hydrate_object. simpl.
  rewrite (lookup_hydrateProps _ _ _ _ _ Hndc Hinc).
  now rewrite lookupProp_setProp_eq.
Qed.

(** A [min] path [k1.k2]: a number below the bound is always reported; when
    that report is the only error, the same input with a number at or above
    the bound has no error at all. *)
Lemma min_boundary (s : Schema) (d : value) (l1 l2 m1 m2 : list PathDef)
    (k1 k2 : string) (so : SchemaOptions) (b rb : bool) (bound bad ok : number) :
  tree s = l1 ++ (k1, SchemaSubdocument
                        (m1 ++ (k2, SchemaNumber, [required rb; min bound]) :: m2) so,
                  [required b]) :: l2 ->
  otherKeys k1 l1 -> otherKeys k1 l2 -> otherKeys k2 m1 -> otherKeys k2 m2 ->
  k1 <> "createdAt" -> k1 <> "updatedAt" ->
  ltb bad bound = true ->
  geq ok bound = true ->
  let e := {| path := (k1 ++ "." ++ k2)%string; kind := Kind_min; message := None |} in
  In e (validateSync s (assignIn d k1 k2 (VNumber bad))) /\
  (validateSync s (assignIn d k1 k2 (VNumber bad)) = [e] ->
   validateSync s (assignIn d k1 k2 (VNumber ok)) = []).
Proof.
  intros Htree Hl1 Hl2 Hm1 Hm2 Hc Hu Hbad Hok e.
  rewrite !(validateSync_assignIn s d l1 l2 m1 m2 k1 k2 so b _ _ _
              Htree Hl1 Hl2 Hm1 Hm2 Hc Hu).
  rewrite validatePath_below_min by assumption.
  rewrite validatePath_at_least_min by assumption.
  fold e. split.
  - apply in_or_app. left. apply in_or_app. right. apply in_or_app. left.
    apply in_or_app. right. now left.
  - intros Honly. rewrite <- !app_assoc in Honly. simpl in Honly.
    rewrite !app_assoc in Honly.
    apply app_unit_middle in Honly as [H1 H2].
    apply app_eq_nil in H1 as [H1 H3].
    apply app_eq_nil in H2 as [H2 H4].
    apply app_eq_nil in H2 as [H2 H5].
    now rewrite H1, H2, H3, H4, H5.
Qed.

(** ** Outcome of [create] and [update] *)

Lemma create_rejected (M : Model) (now : Z) (input : value) (c : Collection)
    (e : ValidatorError) :
  In e (validateSync (schema M) input) ->
  create M now input c = (c, ValidationError (validateSync (schema M) input)).
Proof.
  intros He. unfold create.
  destruct (validateSync (schema M) input); [destruct He | reflexivity].
Qed.

Lemma create_accepted (M : Model) (now : Z) (input : value) (c : Collection) :
  validateSync (schema M) input = [] ->
  create M now input c =
  ({| documents :=
        <[nextId c := stampNew (schema M) now input (newDocument (schema M) input)]>
          (documents c);
      nextId := S (nextId c) |},
   Saved (nextId c) (stampNew (schema M) now input (newDocument (schema M) input))).
Proof. intros H. unfold create. now rewrite H. Qed.

Lemma create_saved_inv (M : Model) (now : Z) (input : value) (c c' : Collection)
    (id : nat) (doc : value) :
  create M now input c = (c', Saved id doc) ->
  validateSync (schema M) input = [] /\
  doc = stampNew (schema M) now input (newDocument (schema M) input) /\
  id = nextId c /\
  c' = {| documents := <[nextId c := doc]> (documents c); nextId := S (nextId c) |}.
Proof.
  unfold create. destruct (validateSync (schema M) input) eqn:E.
  - intros [= <- <- <-]. auto.
  - discriminate.
Qed.

Lemma update_rejected (M : Model) (now : Z) (id : nat) (patch doc : value)
    (c : Collection) (e : ValidatorError) :
  documents c !! id = Some doc ->
  In e (validateSupplied (schema M) patch) ->
  update M now id patch c = (c, ValidationError (validateSupplied (schema M) patch)).
Proof.
  intros Hdoc He. unfold update. rewrite Hdoc.
  destruct (validateSupplied (schema M) patch); [destruct He | reflexivity].
Qed.

Lemma update_saved_inv (M : Model) (now : Z) (id : nat) (patch : value)
    (c c' : Collection) (id' : nat) (doc' : value) :
  update M now id patch c = (c', Saved id' doc') ->
  exists doc,
    documents c !! id = Some doc /\
    validateSupplied (schema M) patch = [] /\
    doc' = stampUpdate (schema M) now (applyPatch (schema M) patch doc) /\
    id' = id /\
    c' = {| documents := <[id := doc']> (documents c); nextId := nextId c |}.
Proof.
  unfold update. destruct (documents c !! id) as [doc|] eqn:Hdoc; [|discriminate].
  destruct (validateSupplied (schema M) patch) eqn:E; [|discriminate].
  intros [= <- <- <-]. exists doc. auto.
Qed.

(** ** Reading a created document *)

(** What a top-level path of a created document holds, and that the path
    had no error. *)
Lemma created_path (M : Model) (now : Z) (input : value) (c c' : Collection)
    (id : nat) (doc : value) (k : string) (t : SchemaType) (o : list SchemaTypeOption) :
  create M now input c = (c', Saved id doc) ->
  List.NoDup (keysOf (tree (schema M))) ->
  In (k, t, o) (tree (schema M)) ->
  k <> "createdAt" -> k <> "updatedAt" ->
  get doc k = stored (hydrate t o (get input k)) /\
  validatePath t o k (get input k) = [].
Proof.
  intros Hcreate Hnd Hin Hc Hu.
  apply create_saved_inv in Hcreate as (Hvalid & -> & _ & _).
  split.
  - rewrite get_stampNew by assumption. rewrite newDocument_hydrateProps. simpl.
    now apply lookup_hydrateProps.
  - eapply validateSync_nil_path; eassumption.
Qed.

(** A required subdocument path without error holds an object. *)
Lemma valid_subdocument_object (children : list PathDef) (so : SchemaOptions)
    (p : string) (raw : value) :
  validatePath (SchemaSubdocument children so) [required true] p raw = [] ->
  exists props, raw = VObject props.
Proof.
  destruct raw; simpl; try discriminate. eauto.
Qed.

(** What a path of a subdocument of a created document holds. *)
Lemma created_child (M : Model) (now : Z) (input : value) (c c' : Collection)
    (id : nat) (doc : value) (k1 k2 : string) (children : list PathDef)
    (so : SchemaOptions) (t : SchemaType) (o : list SchemaTypeOption) :
  create M now input c = (c', Saved id doc) ->
  List.NoDup (keysOf (tree (schema M))) ->
  In (k1, SchemaSubdocument children so, [required true]) (tree (schema M)) ->
  k1 <> "createdAt" -> k1 <> "updatedAt" ->
  List.NoDup (keysOf children) ->
  In (k2, t, o) children ->
  get (get doc k1) k2 = stored (hydrate t o (get (get input k1) k2)).
Proof.
  intros Hcreate Hnd Hin Hc Hu Hndc Hinc.
  destruct (created_path _ _ _ _ _ _ _ _ _ _ Hcreate Hnd Hin Hc Hu) as [Hget Hvalid].
  apply valid_subdocument_object in Hvalid as [props Hprops].
  rewrite Hget, Hprops, hydrate_object. simpl.
  now apply lookup_hydrateProps.
Qed.

(** ** Reading an updated document *)

Lemma applyPatch_fold (s : Schema) (patch doc : value) :
  applyPatch s patch doc = fold_left (patchStep patch) (tree s) doc.
Proof. reflexivity. Qed.

(** A property is left alone by the paths that have another name or are not
    supplied. *)
Lemma fold_patch_untouched (patch : value) (k : string) (l : list PathDef) (d : value) :
  Forall (fun c => keyOf c <> k \/ isUndefined (get patch (keyOf c)) = true) l ->
  get (fold_left (patchStep patch) l d) k = get d k.
Proof.
  intros Hl. revert d.
  induction Hl as [|[[k' t] o] l Hc _ IH]; intros d; [reflexivity|].
  simpl. rewrite IH. unfold keyOf in Hc. simpl in Hc.
  destruct (isUndefined (get patch k')) eqn:E; [reflexivity|].
  destruct Hc as [Hne | Habs]; [|discriminate].
  destruct (hydrate t o (get patch k')); [|reflexivity].
  rewrite get_assign_ne by assumption. apply get_propsOf.
Qed.

Lemma get_applyPatch_unsupplied (s : Schema) (patch doc : value) (k : string) :
  get patch k = VUndefined ->
  get (applyPatch s patch doc) k = get doc k.
Proof.
  intros Habs. rewrite applyPatch_fold. apply fold_patch_untouched.
  apply List.Forall_forall. intros c _.
  destruct (String.eqb_spec (keyOf c) k) as [-> | Hne]; [right | now left].
  now rewrite Habs.
Qed.

Lemma get_applyPatch_not_a_path (s : Schema) (patch doc : value) (k : string) :
  ~ In k (keysOf (tree s)) ->
  get (applyPatch s patch doc) k = get doc k.
Proof.
  intros Hk. rewrite applyPatch_fold. apply fold_patch_untouched.
  apply List.Forall_forall. intros c Hc. left. intros <-.
  apply Hk. now apply in_map.
Qed.

Lemma get_applyPatch_supplied (s : Schema) (patch doc : value) (k : string)
    (t : SchemaType) (o : list SchemaTypeOption) (v : value) :
  List.NoDup (keysOf (tree s)) ->
  In (k, t, o) (tree s) ->
  isUndefined (get patch k) = false ->
  hydrate t o (get patch k) = Some v ->
  get (applyPatch s patch doc) k = v.
Proof.
  intros Hnd Hin Hsup Hv. rewrite applyPatch_fold.
  apply in_split in Hin as (l1 & l2 & Htree). rewrite Htree in *.
  rewrite fold_left_app. simpl. rewrite Hsup, Hv.
  rewrite fold_patch_untouched; [apply get_assign_eq|].
  unfold keysOf in Hnd. rewrite map_app in Hnd. simpl in Hnd.
  apply NoDup_remove_2 in Hnd.
  apply List.Forall_forall. intros c Hc. left. intros Heq.
  apply Hnd. apply in_or_app. right.
  change (keyOf (k, t, o)) with k. rewrite <- Heq. now apply in_map.
Qed.

Lemma validateSupplied_nil_path (s : Schema) (patch : value) (k : string)
    (t : SchemaType) (o : list SchemaTypeOption) :
  validateSupplied s patch = [] ->
  In (k, t, o) (tree s) ->
  isUndefined (get patch k) = false ->
  validatePath t o k (get patch k) = [].
Proof.
  intros Hnil Hin Hsup.
  destruct (validatePath t o k (get patch k)) as [|e l] eqn:E; [reflexivity|].
  assert (In e (validateSupplied s patch)) as H.
  { eapply validateSupplied_path; [eassumption| |rewrite E; now left].
    intros Habs. now rewrite Habs in Hsup. }
  rewrite Hnil in H. destruct H.
Qed.

(** ** Histories *)

(** A property of the stored value of one path that validation enforces
    holds of every record of every history. *)
Lemma history_path_invariant (M : Model) (k : string) (t : SchemaType)
    (o : list SchemaTypeOption) (P : value -> Prop) :
  List.NoDup (keysOf (tree (schema M))) ->
  In (k, t, o) (tree (schema M)) ->
  k <> "createdAt" -> k <> "updatedAt" ->
  (forall raw, validatePath t o k raw = [] -> exists v, hydrate t o raw = Some v /\ P v) ->
  forall (T : Z) (c : Collection),
    history M T c ->
    forall (id : nat) (doc : value), documents c !! id = Some doc -> P (get doc k).
Proof.
  intros Hnd Hin Hc Hu Henforced T c Hhist.
  induction Hhist as [T | T c now input Hhist IH Hle | T c now id0 patch Hhist IH Hle];
    intros id doc Hdoc.
  - simpl in Hdoc. now rewrite lookup_empty in Hdoc.
  - unfold create in Hdoc.
    destruct (validateSync (schema M) input) eqn:Hvalid; simpl in Hdoc; [|eauto].
    destruct (decide (nextId c = id)) as [<- | Hne].
    + rewrite lookup_insert_eq in Hdoc. injection Hdoc as <-.
      destruct (created_path M now input c _ _ _ k t o
                  (create_accepted M now input c Hvalid) Hnd Hin Hc Hu) as [Hget Hpath].
      destruct (Henforced _ Hpath) as (v & Hv & HP).
      now rewrite Hget, Hv.
    + rewrite lookup_insert_ne in Hdoc by assumption. eauto.
  - unfold update in Hdoc.
    destruct (documents c !! id0) as [old|] eqn:Hold; simpl in Hdoc; [|eauto].
    destruct (validateSupplied (schema M) patch) eqn:Hvalid; simpl in Hdoc; [|eauto].
    destruct (decide (id0 = id)) as [<- | Hne].
    + rewrite lookup_insert_eq in Hdoc. injection Hdoc as <-.
      rewrite get_stampUpdate by assumption.
      destruct (isUndefined (get patch k)) eqn:Hsup.
      * rewrite get_applyPatch_unsupplied; [eauto|].
        destruct (get patch k); try discriminate. reflexivity.
      * pose proof (validateSupplied_nil_path _ _ _ _ _ Hvalid Hin Hsup) as Hpath.
        destruct (Henforced _ Hpath) as (v & Hv & HP).
        now rewrite (get_applyPatch_supplied _ _ _ _ _ _ _ Hnd Hin Hsup Hv).
    + rewrite lookup_insert_ne in Hdoc by assumption. eauto.
Qed.

(** The timestamps of a new record when the input carries no [createdAt]. *)
Lemma createdAtOf_clock (now : Z) (input : value) :
  get input "createdAt" = VUndefined -> createdAtOf now input = VDate now.
Proof. intros H. unfold createdAtOf. now rewrite H. Qed.

(** The timestamps of a new record when the input carries a date as
    [createdAt]. *)
Lemma createdAtOf_supplied (now t : Z) (input : value) :
  get input "createdAt" = VDate t -> createdAtOf now input = VDate t.
Proof. intros H. unfold createdAtOf. now rewrite H. Qed.

(** Every record of a history without supplied [createdAt], of a model with
    [timestamps: true], carries two dates, [createdAt] not after [updatedAt],
    and [updatedAt] not after the last clock reading. *)
Lemma history_stamps (M : Model) (T : Z) (c : Collection) :
  timestamps (options (schema M)) = true ->
  ~ In "createdAt" (keysOf (tree (schema M))) ->
  clockHistory M T c ->
  forall (id : nat) (doc : value),
    documents c !! id = Some doc ->
    exists t0 t : Z,
      get doc "createdAt" = VDate t0 /\ get doc "updatedAt" = VDate t /\
      (t0 <= t)%Z /\ (t <= T)%Z.
Proof.
  intros Hts Hnc Hhist.
  induction Hhist as [T | T c now input Hhist IH Hle Hplain
                       | T c now id0 patch Hhist IH Hle];
    intros id doc Hdoc.
  - simpl in Hdoc. now rewrite lookup_empty in Hdoc.
  - assert (forall id doc, documents c !! id = Some doc ->
              exists t0 t, get doc "createdAt" = VDate t0 /\ get doc "updatedAt" = VDate t /\
                           (t0 <= t)%Z /\ (t <= now)%Z) as IH'.
    { intros id' doc' H'. destruct (IH _ _ H') as (t0 & t & ? & ? & ? & ?).
      exists t0, t. repeat split; try assumption. lia. }
    unfold create in Hdoc.
    destruct (validateSync (schema M) input) eqn:Hvalid; simpl in Hdoc; [|eauto].
    destruct (decide (nextId c = id)) as [<- | Hne].
    + rewrite lookup_insert_eq in Hdoc. injection Hdoc as <-.
      exists now, now. unfold stampNew.
      rewrite Hts, (createdAtOf_clock now input Hplain).
      rewrite get_assign_ne by discriminate. simpl.
      rewrite lookupProp_setProp_eq, lookupProp_setProp_eq. repeat split; lia.
    + rewrite lookup_insert_ne in Hdoc by assumption. eauto.
  - assert (forall id doc, documents c !! id = Some doc ->
              exists t0 t, get doc "createdAt" = VDate t0 /\ get doc "updatedAt" = VDate t /\
                           (t0 <= t)%Z /\ (t <= now)%Z) as IH'.
    { intros id' doc' H'. destruct (IH _ _ H') as (t0 & t & ? & ? & ? & ?).
      exists t0, t. repeat split; try assumption. lia. }
    unfold update in Hdoc.
    destruct (documents c !! id0) as [old|] eqn:Hold; simpl in Hdoc; [|eauto].
    destruct (validateSupplied (schema M) patch) eqn:Hvalid; simpl in Hdoc; [|eauto].
    destruct (decide (id0 = id)) as [<- | Hne].
    + rewrite lookup_insert_eq in Hdoc. injection Hdoc as <-.
      destruct (IH _ _ Hold) as (t0 & t & Hc0 & Hu0 & H0 & H1).
      exists t0, now. rewrite get_stampUpdate by discriminate.
      rewrite get_applyPatch_not_a_path by assumption.
      unfold stampUpdate. rewrite Hts, get_assign_eq. repeat split; [assumption | lia | lia].
    + rewrite lookup_insert_ne in Hdoc by assumption. eauto.
Qed.

(** ** Changing one field of a valid input *)

Lemma validateSync_split (s : Schema) (d : value) (l1 l2 : list PathDef) (k : string)
    (t : SchemaType) (op : list SchemaTypeOption) :
  tree s = l1 ++ (k, t, op) :: l2 ->
  validateSync s d =
  (validatePaths "" l1 d ++ validatePath t op k (get d k) ++ validatePaths "" l2 d) ++
  timestampErrors s d.
Proof.
  intros Htree. rewrite validateSync_validatePaths, Htree.
  unfold validatePaths at 1. rewrite flat_map_app. reflexivity.
Qed.

Lemma validatePaths_middle (pre : string) (l1 l2 : list PathDef) (k : string)
    (t : SchemaType) (op : list SchemaTypeOption) (o : value) :
  validatePaths pre (l1 ++ (k, t, op) :: l2) o =
  validatePaths pre l1 o ++ validatePath t op (pre ++ k)%string (get o k) ++
  validatePaths pre l2 o.
Proof. unfold validatePaths. rewrite flat_map_app. reflexivity. Qed.

Lemma otherKeys_of_NoDup (l1 l2 : list PathDef) (c : PathDef) :
  List.NoDup (keysOf (l1 ++ c :: l2)) ->
  otherKeys (keyOf c) l1 /\ otherKeys (keyOf c) l2.
Proof.
  unfold keysOf. rewrite map_app. simpl. intros Hnd.
  apply NoDup_remove_2 in Hnd.
  split; apply List.Forall_forall; intros c' Hc' Heq; apply Hnd; apply in_or_app;
    [left | right]; rewrite <- Heq; now apply in_map.
Qed.

(** The errors of a valid input after one of its top-level fields is
    replaced are the errors of the new value on that path. *)
Lemma valid_assign (s : Schema) (d : value) (k : string) (t : SchemaType)
    (op : list SchemaTypeOption) (v : value) :
  List.NoDup (keysOf (tree s)) ->
  In (k, t, op) (tree s) ->
  validateSync s d = [] ->
  k <> "createdAt" -> k <> "updatedAt" ->
  validateSync s (assign d k v) = validatePath t op k v.
Proof.
  intros Hnd Hin Hvalid Hc Hu.
  apply in_split in Hin as (l1 & l2 & Htree). rewrite Htree in Hnd.
  destruct (otherKeys_of_NoDup _ _ _ Hnd) as [H1 H2].
  rewrite (validateSync_split s d l1 l2 k t op Htree) in Hvalid.
  apply app_eq_nil in Hvalid as [Hvalid Hts].
  apply app_eq_nil in Hvalid as [Hl1 Hrest]. apply app_eq_nil in Hrest as [_ Hl2].
  rewrite validateSync_validatePaths, Htree.
  rewrite timestampErrors_assign by assumption.
  rewrite validatePaths_assign by assumption.
  rewrite Hl1, Hl2, Hts. simpl. now rewrite !app_nil_r.
Qed.

(** The same one level down, for a field of a required subdocument. *)
Lemma valid_assignIn (s : Schema) (d : value) (k1 k2 : string) (children : list PathDef)
    (so : SchemaOptions) (t : SchemaType) (op : list SchemaTypeOption) (v : value) :
  List.NoDup (keysOf (tree s)) ->
  In (k1, SchemaSubdocument children so, [required true]) (tree s) ->
  List.NoDup (keysOf children) ->
  In (k2, t, op) children ->
  validateSync s d = [] ->
  k1 <> "createdAt" -> k1 <> "updatedAt" ->
  validateSync s (assignIn d k1 k2 v) = validatePath t op (k1 ++ "." ++ k2)%string v.
Proof.
  intros Hnd Hin Hndc Hinc Hvalid Hc Hu.
  pose proof (validateSync_nil_path _ _ _ _ _ Hvalid Hin) as Hsub.
  destruct (valid_subdocument_object _ _ _ _ Hsub) as [props Hprops].
  unfold assignIn. rewrite (valid_assign s d k1 _ _ _ Hnd Hin Hvalid Hc Hu).
  rewrite Hprops in *. unfold assign at 1. simpl propsOf.
  rewrite validatePath_object_paths in *.
  apply in_split in Hinc as (m1 & m2 & Hchildren). rewrite Hchildren in *.
  destruct (otherKeys_of_NoDup _ _ _ Hndc) as [H1 H2].
  rewrite validatePaths_middle in Hsub.
  apply app_eq_nil in Hsub as [Hm1 Hrest].
  apply app_eq_nil in Hrest as [_ Hm2].
  change (VObject (setProp k2 v props)) with (assign (VObject props) k2 v).
  rewrite validatePaths_assign by assumption.
  rewrite Hm1, Hm2. simpl.
  now rewrite app_nil_r, append_assoc.
Qed.

(** What the created document holds at a top-level path that was set in the
    input. *)
Lemma stored_assign (s : Schema) (now : Z) (d : value) (k : string) (t : SchemaType)
    (op : list SchemaTypeOption) (v : value) :
  List.NoDup (keysOf (tree s)) ->
  In (k, t, op) (tree s) ->
  k <> "createdAt" -> k <> "updatedAt" ->
  get (stampNew s now (assign d k v) (newDocument s (assign d k v))) k =
  stored (hydrate t op v).
Proof.
  intros Hnd Hin Hc Hu.
  rewrite get_stampNew by assumption.
  rewrite newDocument_hydrateProps. simpl get at 1.
  rewrite (lookup_hydrateProps _ _ _ _ _ Hnd Hin).
  now rewrite get_assign_eq.
Qed.

(** ** Text paths *)

Lemma validatePath_text_bounded (msg : string) (n : nat) (p s : string) :
  validatePath SchemaString [required_msg true msg; trim true; maxlength n] p (VString s) =
  textErrors p (Some msg) true (Some n) s.
Proof.
  unfold textErrors. cbn -[jsTrim String.eqb Nat.leb String.length].
  destruct (String.eqb (jsTrim s) ""); cbn -[jsTrim Nat.leb String.length]; [reflexivity|].
  destruct (Nat.leb (String.length (jsTrim s)) n); reflexivity.
Qed.

Lemma validatePath_text_trimmed (msg : string) (p s : string) :
  validatePath SchemaString [required_msg true msg; trim true] p (VString s) =
  textErrors p (Some msg) true None s.
Proof.
  unfold textErrors. cbn -[jsTrim String.eqb].
  destruct (String.eqb (jsTrim s) ""); reflexivity.
Qed.

Lemma validatePath_text_plain (p s : string) :
  validatePath SchemaString [required true] p (VString s) = textErrors p None false None s.
Proof.
  unfold textErrors. cbn -[String.eqb]. destruct (String.eqb s ""); reflexivity.
Qed.

Lemma validatePath_text_default (d : value) (p s : string) :
  validatePath SchemaString [required true; default d] p (VString s) =
  textErrors p None false None s.
Proof.
  unfold textErrors. cbn -[String.eqb]. destruct (String.eqb s ""); reflexivity.
Qed.

(** ** [jsTrim] *)






(** ** Number and array paths *)

Lemma validatePath_bounded_number (b : bool) (bound n : number) (p : string) :
  validatePath SchemaNumber [required b; min bound] p (VNumber n) =
  boundedNumberErrors p bound n.
Proof.
  unfold boundedNumberErrors. destruct b; simpl;
    destruct (isNaN n); simpl; try reflexivity; destruct (geq n bound); reflexivity.
Qed.

Lemma validatePath_free_number (b : bool) (n : number) (p : string) :
  validatePath SchemaNumber [required b] p (VNumber n) = freeNumberErrors p n.
Proof.
  unfold freeNumberErrors. destruct b; simpl; destruct (isNaN n); reflexivity.
Qed.

Lemma boundedNumberErrors_nil (p : string) (bound n : number) :
  boundedNumberErrors p bound n = [] <-> geq n bound = true.
Proof.
  unfold boundedNumberErrors. destruct (isNaN n) eqn:E.
  - destruct n; try discriminate. simpl. split; discriminate.
  - destruct (geq n bound); split; congruence.
Qed.

Lemma freeNumberErrors_nil (p : string) (n : number) :
  freeNumberErrors p n = [] <-> isNaN n = false.
Proof. unfold freeNumberErrors. destruct (isNaN n); split; congruence. Qed.

Lemma forallb_isString_map (l : list string) : forallb isString (map VString l) = true.
Proof. induction l as [|x l IH]; simpl; [reflexivity | exact IH]. Qed.

Lemma hydrate_stringArray (o : list SchemaTypeOption) (l : list string) :
  hydrate SchemaStringArray o (stringArray l) = Some (stringArray l).
Proof. unfold stringArray. simpl. now rewrite forallb_isString_map. Qed.

Lemma validatePath_free_array (o : list SchemaTypeOption) (p : string) (l : list string) :
  validators SchemaStringArray o = [] ->
  validatePath SchemaStringArray o p (stringArray l) = [].
Proof.
  intros Hv. cbn [validatePath]. rewrite hydrate_stringArray, Hv. reflexivity.
Qed.

(** ** What a created document holds for a value of the right type *)

Lemma validatePath_nil_hydrate (t : SchemaType) (o : list SchemaTypeOption) (p : string)
    (raw : value) :
  validatePath t o p raw = [] -> exists v, hydrate t o raw = Some v.
Proof.
  intros H. destruct (hydrate t o raw) as [v|] eqn:E; [eauto|].
  exfalso. destruct t; cbn [validatePath] in H; rewrite E in H; discriminate.
Qed.

Lemma hydrate_leafTyped (t : SchemaType) (o : list SchemaTypeOption) (raw v : value) :
  leafTyped t raw = true ->
  hydrate t o raw = Some v ->
  v = applySetters t o raw.
Proof.
  destruct t, raw; simpl; try discriminate.
  - intros _. destruct (hasTrim o); now intros [= <-].
  - intros _. destruct (isNaN n); [discriminate | now intros [= <-]].
  - intros ->. now intros [= <-].
Qed.

Lemma valid_child (children : list PathDef) (so : SchemaOptions) (b : bool) (p : string)
    (props : list (string * value)) (k : string) (t : SchemaType)
    (o : list SchemaTypeOption) :
  validatePath (SchemaSubdocument children so) [required b] p (VObject props) = [] ->
  In (k, t, o) children ->
  validatePath t o (p ++ "." ++ k)%string (lookupProp k props) = [].
Proof.
  intros Hnil Hin.
  destruct (validatePath t o (p ++ "." ++ k)%string (lookupProp k props)) as [|e l] eqn:E;
    [reflexivity|].
  assert (In e (validatePath (SchemaSubdocument children so) [required b] p (VObject props)))
    as H.
  { eapply validatePath_child; [eassumption|]. rewrite E. now left. }
  rewrite Hnil in H. destruct H.
Qed.

Lemma created_leaf (M : Model) (now : Z) (input : value) (c c' : Collection)
    (id : nat) (doc : value) (k : string) (t : SchemaType) (o : list SchemaTypeOption) :
  create M now input c = (c', Saved id doc) ->
  List.NoDup (keysOf (tree (schema M))) ->
  In (k, t, o) (tree (schema M)) ->
  k <> "createdAt" -> k <> "updatedAt" ->
  leafTyped t (get input k) = true ->
  get doc k = applySetters t o (get input k).
Proof.
  intros Hcreate Hnd Hin Hc Hu Htyped.
  destruct (created_path _ _ _ _ _ _ _ _ _ _ Hcreate Hnd Hin Hc Hu) as [Hget Hvalid].
  destruct (validatePath_nil_hydrate _ _ _ _ Hvalid) as [v Hv].
  rewrite Hget, Hv. simpl. now apply hydrate_leafTyped.
Qed.

Lemma created_child_valid (M : Model) (now : Z) (input : value) (c c' : Collection)
    (id : nat) (doc : value) (k1 k2 : string) (children : list PathDef)
    (so : SchemaOptions) (t : SchemaType) (o : list SchemaTypeOption) :
  create M now input c = (c', Saved id doc) ->
  List.NoDup (keysOf (tree (schema M))) ->
  In (k1, SchemaSubdocument children so, [required true]) (tree (schema M)) ->
  k1 <> "createdAt" -> k1 <> "updatedAt" ->
  List.NoDup (keysOf children) ->
  In (k2, t, o) children ->
  get (get doc k1) k2 = stored (hydrate t o (get (get input k1) k2)) /\
  validatePath t o (k1 ++ "." ++ k2)%string (get (get input k1) k2) = [].
Proof.
  intros Hcreate Hnd Hin Hc Hu Hndc Hinc.
  split; [eapply created_child; eassumption|].
  destruct (created_path _ _ _ _ _ _ _ _ _ _ Hcreate Hnd Hin Hc Hu) as [_ Hvalid].
  destruct (valid_subdocument_object _ _ _ _ Hvalid) as [props Hprops].
  rewrite Hprops in *. simpl get. eapply valid_child; eassumption.
Qed.

Lemma created_child_leaf (M : Model) (now : Z) (input : value) (c c' : Collection)
    (id : nat) (doc : value) (k1 k2 : string) (children : list PathDef)
    (so : SchemaOptions) (t : SchemaType) (o : list SchemaTypeOption) :
  create M now input c = (c', Saved id doc) ->
  List.NoDup (keysOf (tree (schema M))) ->
  In (k1, SchemaSubdocument children so, [required true]) (tree (schema M)) ->
  k1 <> "createdAt" -> k1 <> "updatedAt" ->
  List.NoDup (keysOf children) ->
  In (k2, t, o) children ->
  leafTyped t (get (get input k1) k2) = true ->
  get (get doc k1) k2 = applySetters t o (get (get input k1) k2).
Proof.
  intros Hcreate Hnd Hin Hc Hu Hndc Hinc Htyped.
  destruct (created_child_valid _ _ _ _ _ _ _ _ _ _ _ _ _ Hcreate Hnd Hin Hc Hu Hndc Hinc)
    as [Hget Hvalid].
  destruct (validatePath_nil_hydrate _ _ _ _ Hvalid) as [v Hv].
  rewrite Hget, Hv. simpl. now apply hydrate_leafTyped.
Qed.

Lemma created_stamps (M : Model) (now : Z) (input : value) (c c' : Collection)
    (id : nat) (doc : value) :
  timestamps (options (schema M)) = true ->
  create M now input c = (c', Saved id doc) ->
  findById id c' = Some doc /\
  get doc "createdAt" = createdAtOf now input /\
  get doc "updatedAt" = createdAtOf now input.
Proof.
  intros Hts Hcreate.
  apply create_saved_inv in Hcreate as (_ & -> & -> & ->).
  split; [unfold findById; simpl; apply lookup_insert_eq|].
  unfold stampNew. rewrite Hts. split.
  - rewrite get_assign_ne by discriminate. simpl. apply lookupProp_setProp_eq.
  - apply get_assign_eq.
Qed.

(** A [createdAt] supplied as a number is cast to the date of that time
    value and kept, and [updatedAt] follows it; one that is no date is
    reported on its path, and nothing is stored. *)
Example create_with_numeric_createdAt :
  exists (c' : Collection) (doc : value),
    create Guide.GuideModel 1000 (assign sampleGuide "createdAt" (VNumber (num 5)))
      emptyCollection = (c', Saved 0 doc) /\
    get doc "createdAt" = VDate 5 /\ get doc "updatedAt" = VDate 5.
Proof. eexists. eexists. split; [reflexivity|]. split; reflexivity. Qed.

Example create_with_unreadable_createdAt :
  create Guide.GuideModel 1000 (assign sampleGuide "createdAt" (VObject []))
    emptyCollection = (emptyCollection, ValidationError [castError "createdAt"]).
Proof. reflexivity. Qed.

Lemma applySetters_untrimmed (t : SchemaType) (o : list SchemaTypeOption) (v : value) :
  hasTrim o = false -> applySetters t o v = v.
Proof. intros H. destruct t, v; simpl; try reflexivity. now rewrite H. Qed.

(** ** What validation enforces on the stored value of a path *)











End DocumentFacts.

(** * Properties of the Guide and Homestay models *)

Import Mongoose Statements DocumentFacts.

Lemma create_rejectedWith (M : Model) (now : Z) (input : value) (c : Collection)
    (e : ValidatorError) :
  In e (validateSync (schema M) input) -> rejectedWith (create M now input c) c e.
Proof.
  intros He. eexists. split; [eapply create_rejected; eassumption | assumption].
Qed.

Lemma update_rejectedWith (M : Model) (now : Z) (id : nat) (patch doc : value)
    (c : Collection) (e : ValidatorError) :
  documents c !! id = Some doc ->
  In e (validateSupplied (schema M) patch) ->
  rejectedWith (update M now id patch c) c e.
Proof.
  intros Hdoc He. eexists. split; [eapply update_rejected; eassumption | assumption].
Qed.

(** ** Sample inputs *)

Lemma sampleGuide_valid : validateSync (schema Guide.GuideModel) sampleGuide = [].
Proof. reflexivity. Qed.

Lemma sampleHomestay_valid : validateSync (schema Homestay.HomestayModel) sampleHomestay = [].
Proof. reflexivity. Qed.

(** ** Guide pricing *)

Lemma guide_pricing_in_tree :
  In ("pricing", subdocument Guide.pricingSchema, [required true])
     (tree (schema Guide.GuideModel)).
Proof. simpl. tauto. Qed.

Lemma guide_price_below_zero (input : value) (pr : list (string * value))
    (k : string) (n : number) :
  get input "pricing" = VObject pr ->
  k = "halfDay" \/ k = "fullDay" ->
  lookupProp k pr = VNumber n ->
  ltb n (num 0) = true ->
  In (minError ("pricing." ++ k))
     (validatePath (subdocument Guide.pricingSchema) [required true] "pricing"
        (get input "pricing")).
Proof.
  intros Hpr Hk Hn Hneg. rewrite Hpr.
  apply validatePath_child with (k := k) (t := SchemaNumber)
                                (o := [required true; min (num 0)]).
  - destruct Hk as [-> | ->]; simpl; tauto.
  - rewrite Hn, validatePath_below_min by assumption. now left.
Qed.

(** C1, as amended.  A Guide creation input, or a partial update input, whose
    [pricing.halfDay] or [pricing.fullDay] is a negative number is rejected
    with a validation error on that path, and the collection is left as it
    was. *)
Theorem guide_negative_halfDay_fullDay_rejected
    (now : Z) (input : value) (pr : list (string * value)) (k : string)
    (n : number) (c : Collection) :
  get input "pricing" = VObject pr ->
  k = "halfDay" \/ k = "fullDay" ->
  lookupProp k pr = VNumber n ->
  ltb n (num 0) = true ->
  rejectedWith (create Guide.GuideModel now input c) c (minError ("pricing." ++ k)) /\
  (forall (id : nat) (doc : value),
     documents c !! id = Some doc ->
     rejectedWith (update Guide.GuideModel now id input c) c (minError ("pricing." ++ k))).
Proof.
  intros Hpr Hk Hn Hneg.
  pose proof (guide_price_below_zero input pr k n Hpr Hk Hn Hneg) as He.
  split.
  - apply create_rejectedWith.
    eapply validateSync_path; [apply guide_pricing_in_tree | exact He].
  - intros id doc Hdoc. eapply update_rejectedWith; [eassumption|].
    eapply validateSupplied_path; [apply guide_pricing_in_tree | | exact He].
    rewrite Hpr. discriminate.
Qed.

Lemma guide_negative_halfDay_fullDay_rejected_witness :
  rejectedWith (create Guide.GuideModel 1000 guideNegativeHalfDay emptyCollection)
    emptyCollection (minError "pricing.halfDay").
Proof.
  apply (guide_negative_halfDay_fullDay_rejected 1000 guideNegativeHalfDay
           [("halfDay", VNumber (num (-5))); ("fullDay", VNumber (num 1500))]
           "halfDay" (num (-5)) emptyCollection).
  - reflexivity.
  - left; reflexivity.
  - reflexivity.
  - reflexivity.
Defined.

(** C1, as stated, fails: a creation input whose [pricing.multiDay] is [-7]
    is accepted, and the stored record holds [-7]. *)
Lemma guide_negative_multiDay_accepted :
  TypeScript.hasType (TypeScript.TsObject Guide.CreateGuideInput) guideNegativeMultiDay = true /\
  ltb (num (-7)) (num 0) = true /\
  get (get guideNegativeMultiDay "pricing") "multiDay" = VNumber (num (-7)) /\
  exists (c' : Collection) (doc : value),
    create Guide.GuideModel 1000 guideNegativeMultiDay emptyCollection = (c', Saved 0 doc) /\
    findById 0 c' = Some doc /\
    get (get doc "pricing") "multiDay" = VNumber (num (-7)).
Proof.
  split; [reflexivity|]. split; [reflexivity|]. split; [reflexivity|].
  eexists. eexists. split; [reflexivity|]. split; reflexivity.
Qed.

(** ** Homestay pricing: the bound on [basePrice] *)

Lemma homestay_keys_NoDup : List.NoDup (keysOf (tree (schema Homestay.HomestayModel))).
Proof. repeat constructor; simpl; intuition discriminate. Qed.

Lemma homestay_pricing_keys_NoDup : List.NoDup (keysOf (tree Homestay.pricingSchema)).
Proof. repeat constructor; simpl; intuition discriminate. Qed.

Ltac other_keys := repeat constructor; unfold keyOf; simpl; discriminate.

Lemma homestay_basePrice_bound (d : value) (bad ok : number) :
  ltb bad (num 100) = true ->
  geq ok (num 100) = true ->
  In (minError "pricing.basePrice")
     (validateSync (schema Homestay.HomestayModel) (withBasePrice bad d)) /\
  (validateSync (schema Homestay.HomestayModel) (withBasePrice bad d)
     = [minError "pricing.basePrice"] ->
   validateSync (schema Homestay.HomestayModel) (withBasePrice ok d) = []).
Proof.
  intros Hbad Hok. unfold withBasePrice.
  apply (min_boundary (schema Homestay.HomestayModel) d
           (firstn 4 (tree (schema Homestay.HomestayModel)))
           (skipn 5 (tree (schema Homestay.HomestayModel)))
           [] (skipn 1 (tree Homestay.pricingSchema))
           "pricing" "basePrice" (options Homestay.pricingSchema) true true
           (num 100) bad ok); try assumption; try reflexivity; other_keys.
Qed.

(** C2.  Whatever the rest of a Homestay creation input is, with
    [pricing.basePrice = 99] it is rejected, with a [min] error on that path;
    and when that is its only error, the same input with
    [pricing.basePrice = 100] is accepted and stored with that price. *)
Theorem homestay_basePrice_boundary (now : Z) (d : value) (c : Collection) :
  rejectedWith (create Homestay.HomestayModel now (withBasePrice (num 99) d) c) c
    (minError "pricing.basePrice") /\
  (validateSync (schema Homestay.HomestayModel) (withBasePrice (num 99) d)
     = [minError "pricing.basePrice"] ->
   exists (c' : Collection) (doc : value),
     create Homestay.HomestayModel now (withBasePrice (num 100) d) c
       = (c', Saved (nextId c) doc) /\
     findById (nextId c) c' = Some doc /\
     get (get doc "pricing") "basePrice" = VNumber (num 100)).
Proof.
  destruct (homestay_basePrice_bound d (num 99) (num 100) eq_refl eq_refl) as [Hin Hok].
  split.
  - now apply create_rejectedWith.
  - intros Honly. specialize (Hok Honly).
    eexists. eexists. split; [now apply create_accepted|]. split.
    + unfold findById. simpl. apply lookup_insert_eq.
    + unfold withBasePrice.
      rewrite (stored_assignIn (schema Homestay.HomestayModel) now d
                 (tree Homestay.pricingSchema) "pricing" "basePrice"
                 (options Homestay.pricingSchema) true SchemaNumber
                 [required true; min (num 100)]).
      * reflexivity.
      * apply homestay_keys_NoDup.
      * simpl. tauto.
      * apply homestay_pricing_keys_NoDup.
      * simpl. tauto.
      * discriminate.
      * discriminate.
Qed.

Lemma homestay_basePrice_boundary_witness :
  validateSync (schema Homestay.HomestayModel) (withBasePrice (num 99) typedHomestay)
    = [minError "pricing.basePrice"] /\
  exists (c' : Collection) (doc : value),
    create Homestay.HomestayModel 1000 (withBasePrice (num 100) typedHomestay) emptyCollection
      = (c', Saved 0 doc) /\
    findById 0 c' = Some doc /\
    get (get doc "pricing") "basePrice" = VNumber (num 100).
Proof.
  split; [reflexivity|].
  apply (proj2 (homestay_basePrice_boundary 1000 typedHomestay emptyCollection)).
  reflexivity.
Defined.

(** ** Homestay capacity *)

Lemma capacityBound_in_tree (k : string) (bound : number) :
  capacityBound k = Some bound ->
  In (k, SchemaNumber, [required true; min bound]) (tree Homestay.capacitySchema).
Proof.
  unfold capacityBound, keyOf. simpl.
  destruct (String.eqb k "guests") eqn:E1;
    [apply String.eqb_eq in E1 as ->; intros [= <-]; tauto|].
  destruct (String.eqb k "bedrooms") eqn:E2;
    [apply String.eqb_eq in E2 as ->; intros [= <-]; tauto|].
  destruct (String.eqb k "beds") eqn:E3;
    [apply String.eqb_eq in E3 as ->; intros [= <-]; tauto|].
  destruct (String.eqb k "bathrooms") eqn:E4;
    [apply String.eqb_eq in E4 as ->; intros [= <-]; tauto|].
  discriminate.
Qed.

Lemma homestay_capacity_in_tree :
  In ("capacity", subdocument Homestay.capacitySchema, [required true])
     (tree (schema Homestay.HomestayModel)).
Proof. simpl. tauto. Qed.

Lemma homestay_capacity_keys_NoDup : List.NoDup (keysOf (tree Homestay.capacitySchema)).
Proof. repeat constructor; simpl; intuition discriminate. Qed.

Lemma homestay_capacity_below_bound (input : value) (cap : list (string * value))
    (k : string) (bound n : number) :
  get input "capacity" = VObject cap ->
  capacityBound k = Some bound ->
  lookupProp k cap = VNumber n ->
  ltb n bound = true ->
  In (minError ("capacity." ++ k))
     (validatePath (subdocument Homestay.capacitySchema) [required true] "capacity"
        (get input "capacity")).
Proof.
  intros Hcap Hk Hn Hlt. rewrite Hcap.
  apply validatePath_child with (k := k) (t := SchemaNumber)
                                (o := [required true; min bound]).
  - now apply capacityBound_in_tree.
  - rewrite Hn, validatePath_below_min by assumption. now left.
Qed.

Lemma homestay_guests_bound (d : value) (bad ok : number) :
  ltb bad (num 1) = true ->
  geq ok (num 1) = true ->
  In (minError "capacity.guests")
     (validateSync (schema Homestay.HomestayModel) (withGuests bad d)) /\
  (validateSync (schema Homestay.HomestayModel) (withGuests bad d)
     = [minError "capacity.guests"] ->
   validateSync (schema Homestay.HomestayModel) (withGuests ok d) = []).
Proof.
  intros Hbad Hok. unfold withGuests.
  apply (min_boundary (schema Homestay.HomestayModel) d
           (firstn 5 (tree (schema Homestay.HomestayModel)))
           (skipn 6 (tree (schema Homestay.HomestayModel)))
           [] (skipn 1 (tree Homestay.capacitySchema))
           "capacity" "guests" (options Homestay.capacitySchema) true true
           (num 1) bad ok); try assumption; try reflexivity; other_keys.
Qed.

(** C5.  The capacity schema bounds [guests] and [beds] from below by 1 and
    [bedrooms] and [bathrooms] by 0: a creation input, or a partial update
    input, that supplies a capacity with a number below the bound of its path
    is rejected with a [min] error on that path and nothing is written.  With
    [guests = 0] a creation input is rejected whatever the rest is, and when
    that is its only error the same input with [guests = 1] is accepted and
    stored with one guest. *)
Theorem homestay_capacity_bounds (now : Z) (c : Collection) :
  capacityBound "guests" = Some (num 1) /\
  capacityBound "beds" = Some (num 1) /\
  capacityBound "bedrooms" = Some (num 0) /\
  capacityBound "bathrooms" = Some (num 0) /\
  (forall (input : value) (cap : list (string * value)) (k : string) (bound n : number),
     get input "capacity" = VObject cap ->
     capacityBound k = Some bound ->
     lookupProp k cap = VNumber n ->
     ltb n bound = true ->
     rejectedWith (create Homestay.HomestayModel now input c) c
       (minError ("capacity." ++ k)) /\
     (forall (id : nat) (doc : value),
        documents c !! id = Some doc ->
        rejectedWith (update Homestay.HomestayModel now id input c) c
          (minError ("capacity." ++ k)))) /\
  (forall d : value,
     rejectedWith (create Homestay.HomestayModel now (withGuests (num 0) d) c) c
       (minError "capacity.guests") /\
     (validateSync (schema Homestay.HomestayModel) (withGuests (num 0) d)
        = [minError "capacity.guests"] ->
      exists (c' : Collection) (doc : value),
        create Homestay.HomestayModel now (withGuests (num 1) d) c
          = (c', Saved (nextId c) doc) /\
        findById (nextId c) c' = Some doc /\
        get (get doc "capacity") "guests" = VNumber (num 1))).
Proof.
  do 4 (split; [reflexivity|]). split.
  - intros input cap k bound n Hcap Hk Hn Hlt.
    pose proof (homestay_capacity_below_bound input cap k bound n Hcap Hk Hn Hlt) as He.
    split.
    + apply create_rejectedWith.
      eapply validateSync_path; [apply homestay_capacity_in_tree | exact He].
    + intros id doc Hdoc. eapply update_rejectedWith; [eassumption|].
      eapply validateSupplied_path; [apply homestay_capacity_in_tree | | exact He].
      rewrite Hcap. discriminate.
  - intros d.
    destruct (homestay_guests_bound d (num 0) (num 1) eq_refl eq_refl) as [Hin Hok].
    split.
    + now apply create_rejectedWith.
    + intros Honly. specialize (Hok Honly).
      eexists. eexists. split; [now apply create_accepted|]. split.
      * unfold findById. simpl. apply lookup_insert_eq.
      * unfold withGuests.
        rewrite (stored_assignIn (schema Homestay.HomestayModel) now d
                   (tree Homestay.capacitySchema) "capacity" "guests"
                   (options Homestay.capacitySchema) true SchemaNumber
                   [required true; min (num 1)]).
        -- reflexivity.
        -- apply homestay_keys_NoDup.
        -- simpl. tauto.
        -- apply homestay_capacity_keys_NoDup.
        -- simpl. tauto.
        -- discriminate.
        -- discriminate.
Qed.

Lemma homestay_capacity_bounds_witness :
  rejectedWith (create Homestay.HomestayModel 1000 homestayNoBeds emptyCollection)
    emptyCollection (minError "capacity.beds") /\
  validateSync (schema Homestay.HomestayModel) (withGuests (num 0) typedHomestay)
    = [minError "capacity.guests"] /\
  exists (c' : Collection) (doc : value),
    create Homestay.HomestayModel 1000 (withGuests (num 1) typedHomestay) emptyCollection
      = (c', Saved 0 doc) /\
    findById 0 c' = Some doc /\
    get (get doc "capacity") "guests" = VNumber (num 1).
Proof.
  pose proof (homestay_capacity_bounds 1000 emptyCollection)
    as (_ & _ & _ & _ & Hreject & Hguests).
  split; [|split].
  - apply (Hreject homestayNoBeds
             [("guests", VNumber (num 2)); ("bedrooms", VNumber (num 1));
              ("beds", VNumber (num 0)); ("bathrooms", VNumber (num 1))]
             "beds" (num 1) (num 0)); reflexivity.
  - reflexivity.
  - apply (proj2 (Hguests typedHomestay)). reflexivity.
Defined.

(** ** Defaults *)

Lemma guide_keys_NoDup : List.NoDup (keysOf (tree (schema Guide.GuideModel))).
Proof. repeat constructor; simpl; intuition discriminate. Qed.

Lemma guide_location_keys_NoDup : List.NoDup (keysOf (tree Guide.locationSchema)).
Proof. repeat constructor; simpl; intuition discriminate. Qed.

Lemma homestay_location_keys_NoDup : List.NoDup (keysOf (tree Homestay.locationSchema)).
Proof. repeat constructor; simpl; intuition discriminate. Qed.

Ltac default_of_path Hcreate Habsent keys t o :=
  match goal with
  | |- get _ ?k = _ =>
      let H := fresh in
      destruct (created_path _ _ _ _ _ _ _ k t o Hcreate keys) as [H _];
      [simpl; tauto | discriminate | discriminate |];
      rewrite H, Habsent; reflexivity
  end.

(** C4.  In the record stored for an accepted creation input, every path that
    has a default and is absent from the input holds that default: for a
    Guide, [availability] is ['available'] and [location.state] is
    ['Jharkhand']; for a Homestay, [propertyType] is ['entire'], [status] is
    ['active'], [location.state] is ['Jharkhand'], and [amenities] and
    [images] are empty arrays. *)
Theorem creation_defaults (now : Z) (input : value) (c c' : Collection)
    (id : nat) (doc : value) :
  (create Guide.GuideModel now input c = (c', Saved id doc) ->
   (get input "availability" = VUndefined ->
    get doc "availability" = VString "available") /\
   (get (get input "location") "state" = VUndefined ->
    get (get doc "location") "state" = VString "Jharkhand")) /\
  (create Homestay.HomestayModel now input c = (c', Saved id doc) ->
   (get input "propertyType" = VUndefined ->
    get doc "propertyType" = VString "entire") /\
   (get input "status" = VUndefined ->
    get doc "status" = VString "active") /\
   (get (get input "location") "state" = VUndefined ->
    get (get doc "location") "state" = VString "Jharkhand") /\
   (get input "amenities" = VUndefined -> get doc "amenities" = VArray []) /\
   (get input "images" = VUndefined -> get doc "images" = VArray [])).
Proof.
  split.
  - intros Hcreate. split.
    + intros Habsent.
      default_of_path Hcreate Habsent guide_keys_NoDup SchemaString
        [enum ["available"; "busy"; "unavailable"]; default (VString "available")].
    + intros Habsent.
      rewrite (created_child _ _ _ _ _ _ _ "location" "state"
                 (tree Guide.locationSchema) (options Guide.locationSchema)
                 SchemaString [required true; default (VString "Jharkhand")]
                 Hcreate guide_keys_NoDup).
      * now rewrite Habsent.
      * simpl. tauto.
      * discriminate.
      * discriminate.
      * apply guide_location_keys_NoDup.
      * simpl. tauto.
  - intros Hcreate. split; [|split; [|split; [|split]]].
    + intros Habsent.
      default_of_path Hcreate Habsent homestay_keys_NoDup SchemaString
        [enum ["entire"; "private"; "shared"]; required true; default (VString "entire")].
    + intros Habsent.
      default_of_path Hcreate Habsent homestay_keys_NoDup SchemaString
        [enum ["active"; "inactive"; "pending"]; default (VString "active")].
    + intros Habsent.
      rewrite (created_child _ _ _ _ _ _ _ "location" "state"
                 (tree Homestay.locationSchema) (options Homestay.locationSchema)
                 SchemaString [required true; default (VString "Jharkhand")]
                 Hcreate homestay_keys_NoDup).
      * now rewrite Habsent.
      * simpl. tauto.
      * discriminate.
      * discriminate.
      * apply homestay_location_keys_NoDup.
      * simpl. tauto.
    + intros Habsent.
      default_of_path Hcreate Habsent homestay_keys_NoDup SchemaStringArray
        [default (VArray [])].
    + intros Habsent.
      default_of_path Hcreate Habsent homestay_keys_NoDup SchemaStringArray
        [default (VArray [])].
Qed.

Lemma creation_defaults_witness :
  (get storedSampleGuide "availability" = VString "available" /\
   get (get storedSampleGuide "location") "state" = VString "Jharkhand") /\
  (get storedSampleHomestay "propertyType" = VString "entire" /\
   get storedSampleHomestay "status" = VString "active" /\
   get (get storedSampleHomestay "location") "state" = VString "Jharkhand" /\
   get storedSampleHomestay "amenities" = VArray [] /\
   get storedSampleHomestay "images" = VArray []).
Proof.
  split.
  - destruct (proj1 (creation_defaults 1000 sampleGuide emptyCollection
                       (fst (create Guide.GuideModel 1000 sampleGuide emptyCollection))
                       0 storedSampleGuide) eq_refl) as [H1 H2].
    split; [apply H1 | apply H2]; reflexivity.
  - destruct (proj2 (creation_defaults 1000 sampleHomestay emptyCollection
                       (fst (create Homestay.HomestayModel 1000 sampleHomestay emptyCollection))
                       0 storedSampleHomestay) eq_refl) as (H1 & H2 & H3 & H4 & H5).
    split; [apply H1 | split; [apply H2 | split; [apply H3 | split; [apply H4 | apply H5]]]];
      reflexivity.
Defined.

(** ** Indexes *)

(** C8.  The index declarations of the two schemas are exactly the four the
    source makes on each: for Guide, [specializations], [availability],
    [location.district], and one text index over [name] and [bio]; for
    Homestay, [location.district], [pricing.basePrice], [status], and one text
    index over [title] and [description]. *)
Theorem declared_indexes :
  indexes (schema Guide.GuideModel) =
    [ [("specializations", Ascending)];
      [("availability", Ascending)];
      [("location.district", Ascending)];
      [("name", Text); ("bio", Text)] ] /\
  indexes (schema Homestay.HomestayModel) =
    [ [("location.district", Ascending)];
      [("pricing.basePrice", Ascending)];
      [("status", Ascending)];
      [("title", Text); ("description", Text)] ].
Proof. split; reflexivity. Qed.

(** ** Enumerated paths *)

Lemma enum_path_rejects (values : list string) (d : value) (p s : string) :
  outside s values ->
  validatePath SchemaString [enum values; default d] p (VString s) = [enumError p].
Proof. unfold outside. intros Hout. simpl. now rewrite Hout. Qed.

Lemma enum_required_path_rejects (values : list string) (d : value) (p s : string) :
  outside s values ->
  validatePath SchemaString [enum values; required true; default d] p (VString s) =
  [enumRejection p true s].
Proof.
  unfold outside, enumRejection. intros Hout. simpl.
  destruct (String.eqb s "") eqn:E; simpl; [reflexivity|]. now rewrite Hout.
Qed.

Section EnumRejection.

Variables (M : Model) (k : string) (o : list SchemaTypeOption) (e : ValidatorError).
Variables (now : Z) (input : value) (c : Collection).
Hypothesis path_declared : In (k, SchemaString, o) (tree (schema M)).
Hypothesis path_error : validatePath SchemaString o k (get input k) = [e].

Lemma enum_rejected_on_create : rejectedWith (create M now input c) c e.
Proof.
  apply create_rejectedWith. eapply validateSync_path; [exact path_declared|].
  rewrite path_error. now left.
Qed.

Lemma enum_rejected_on_update (id : nat) (doc : value) :
  get input k <> VUndefined ->
  documents c !! id = Some doc ->
  rejectedWith (update M now id input c) c e.
Proof.
  intros Hsup Hdoc. eapply update_rejectedWith; [eassumption|].
  eapply validateSupplied_path; [exact path_declared | exact Hsup |].
  rewrite path_error. now left.
Qed.

End EnumRejection.

Lemma enum_string_rejected (M : Model) (k : string) (o : list SchemaTypeOption)
    (e : ValidatorError) (now : Z) (input : value) (s : string) (c : Collection) :
  In (k, SchemaString, o) (tree (schema M)) ->
  get input k = VString s ->
  validatePath SchemaString o k (VString s) = [e] ->
  rejectedWith (create M now input c) c e /\
  (forall (id : nat) (doc : value),
     findById id c = Some doc -> rejectedWith (update M now id input c) c e).
Proof.
  intros Hin Hs He. rewrite <- Hs in He. split.
  - eapply enum_rejected_on_create; eassumption.
  - intros id doc Hdoc. eapply enum_rejected_on_update; try eassumption.
    rewrite Hs. discriminate.
Qed.

(** C9, as amended.  A string supplied for an enumerated path that is not one
    of its strings is rejected, on creation and on update, and the collection
    is left as it was: Guide [availability] outside
    [available, busy, unavailable], Homestay [status] outside
    [active, inactive, pending], Homestay [propertyType] outside
    [entire, private, shared].  The error is the enum error of the path,
    except that the empty string on the required [propertyType] is reported
    by the required validator, which runs first. *)
Theorem enum_values_rejected (now : Z) (input : value) (s : string) (c : Collection) :
  (get input "availability" = VString s -> outside s Guide.GuideAvailability ->
   rejectedWith (create Guide.GuideModel now input c) c (enumError "availability") /\
   (forall (id : nat) (doc : value),
      findById id c = Some doc ->
      rejectedWith (update Guide.GuideModel now id input c) c (enumError "availability"))) /\
  (get input "status" = VString s -> outside s Homestay.HomestayStatus ->
   rejectedWith (create Homestay.HomestayModel now input c) c (enumError "status") /\
   (forall (id : nat) (doc : value),
      findById id c = Some doc ->
      rejectedWith (update Homestay.HomestayModel now id input c) c (enumError "status"))) /\
  (get input "propertyType" = VString s -> outside s Homestay.PropertyType ->
   rejectedWith (create Homestay.HomestayModel now input c) c
     (if String.eqb s "" then requiredError "propertyType" else enumError "propertyType") /\
   (forall (id : nat) (doc : value),
      findById id c = Some doc ->
      rejectedWith (update Homestay.HomestayModel now id input c) c
        (if String.eqb s "" then requiredError "propertyType"
         else enumError "propertyType"))).
Proof.
  split; [|split]; intros Hs Hout.
  - apply (enum_string_rejected Guide.GuideModel "availability"
             [enum ["available"; "busy"; "unavailable"]; default (VString "available")]
             _ now input s c); [simpl; tauto | exact Hs |].
    now apply enum_path_rejects.
  - apply (enum_string_rejected Homestay.HomestayModel "status"
             [enum ["active"; "inactive"; "pending"]; default (VString "active")]
             _ now input s c); [simpl; tauto | exact Hs |].
    now apply enum_path_rejects.
  - apply (enum_string_rejected Homestay.HomestayModel "propertyType"
             [enum ["entire"; "private"; "shared"]; required true; default (VString "entire")]
             _ now input s c); [simpl; tauto | exact Hs |].
    now apply enum_required_path_rejects.
Qed.

Lemma enum_values_rejected_witness :
  rejectedWith
    (create Guide.GuideModel 1000 (assign sampleGuide "availability" (VString "away"))
       emptyCollection)
    emptyCollection (enumError "availability") /\
  rejectedWith
    (create Homestay.HomestayModel 1000 (assign typedHomestay "status" (VString "away"))
       emptyCollection)
    emptyCollection (enumError "status") /\
  rejectedWith
    (create Homestay.HomestayModel 1000
       (assign typedHomestay "propertyType" (VString "hostel")) emptyCollection)
    emptyCollection (enumError "propertyType") /\
  rejectedWith
    (update Guide.GuideModel 2000 0 (VObject [("availability", VString "away")])
       afterSampleGuide)
    afterSampleGuide (enumError "availability").
Proof.
  split; [|split; [|split]].
  - apply (proj1 (enum_values_rejected 1000
             (assign sampleGuide "availability" (VString "away")) "away" emptyCollection));
      reflexivity.
  - apply (proj1 (proj2 (enum_values_rejected 1000
             (assign typedHomestay "status" (VString "away")) "away" emptyCollection)));
      reflexivity.
  - apply (proj2 (proj2 (enum_values_rejected 1000
             (assign typedHomestay "propertyType" (VString "hostel")) "hostel"
             emptyCollection)));
      reflexivity.
  - apply (proj2 (proj1 (enum_values_rejected 2000
                           (VObject [("availability", VString "away")])
                           "away" afterSampleGuide) eq_refl eq_refl)
             0%nat storedSampleGuide).
    reflexivity.
Defined.

(** C9, as stated, fails: the empty string is outside the values of
    [propertyType], and a creation input that supplies it is rejected with
    the required error alone; no enum error is reported. *)
Lemma homestay_empty_propertyType_required_error :
  outside "" Homestay.PropertyType /\
  get homestayEmptyPropertyType "propertyType" = VString "" /\
  create Homestay.HomestayModel 1000 homestayEmptyPropertyType emptyCollection =
    (emptyCollection, ValidationError [requiredError "propertyType"]) /\
  ~ In (enumError "propertyType") [requiredError "propertyType"].
Proof.
  split; [reflexivity|]. split; [reflexivity|]. split; [reflexivity|].
  intros [H | []]. discriminate H.
Qed.

(** ** Homestay: optional numbers *)

(** C10.  [pricing.cleaningFee] and [pricing.weekendPrice] are declared with
    no validator at all, [coordinates.lat] and [coordinates.lng] with the
    required validator only, so every finite number passes on these paths and
    is stored as supplied; and there is a creation input with a negative
    cleaning fee, a negative weekend price and coordinates far outside any
    latitude or longitude that is accepted and stored with these very
    values. *)
Theorem homestay_optional_numbers_unbounded :
  In ("cleaningFee", SchemaNumber, [required false]) (tree Homestay.pricingSchema) /\
  In ("weekendPrice", SchemaNumber, [required false]) (tree Homestay.pricingSchema) /\
  In ("lat", SchemaNumber, [required true]) (tree Homestay.coordinatesSchema) /\
  In ("lng", SchemaNumber, [required true]) (tree Homestay.coordinatesSchema) /\
  validators SchemaNumber [required false] = [] /\
  map validatorKind (validators SchemaNumber [required true]) = [Kind_required] /\
  (forall (b : bool) (p : string) (q : Q),
     validatePath SchemaNumber [required b] p (VNumber (Finite q)) = [] /\
     hydrate SchemaNumber [required b] (VNumber (Finite q)) = Some (VNumber (Finite q))) /\
  TypeScript.hasType (TypeScript.TsObject Homestay.CreateHomestayInput) homestayOutOfRange
    = true /\
  ltb (num (-50)) (num 0) = true /\
  exists (c' : Collection) (doc : value),
    create Homestay.HomestayModel 1000 homestayOutOfRange emptyCollection
      = (c', Saved 0 doc) /\
    findById 0 c' = Some doc /\
    get (get doc "pricing") "cleaningFee" = VNumber (num (-50)) /\
    get (get doc "pricing") "weekendPrice" = VNumber (num (-1)) /\
    get (get (get doc "location") "coordinates") "lat" = VNumber (num 1000) /\
    get (get (get doc "location") "coordinates") "lng" = VNumber (num (-1000)).
Proof.
  split; [simpl; tauto|]. split; [simpl; tauto|].
  split; [simpl; tauto|]. split; [simpl; tauto|].
  split; [reflexivity|]. split; [reflexivity|].
  split; [intros [] p q; split; reflexivity|].
  split; [reflexivity|]. split; [reflexivity|].
  eexists. eexists. split; [reflexivity|].
  split; [reflexivity|]. split; [reflexivity|]. split; [reflexivity|].
  split; reflexivity.
Qed.

(** ** Guide: specializations and languages *)

Lemma nonEmpty_enforced (msg k : string) (raw : value) :
  validatePath SchemaStringArray [required true; validate Guide.nonEmpty msg] k raw = [] ->
  exists v,
    hydrate SchemaStringArray [required true; validate Guide.nonEmpty msg] raw = Some v /\
    Guide.nonEmpty v = true.
Proof.
  intros H. cbn [validatePath] in H.
  destruct (hydrate SchemaStringArray [required true; validate Guide.nonEmpty msg] raw)
    as [v|]; [|discriminate].
  exists v. split; [reflexivity|].
  destruct v; simpl in H; try discriminate.
  simpl. destruct (Nat.ltb 0 (List.length items)); [reflexivity | discriminate].
Qed.

Lemma empty_or_absent_reported (msg k : string) (raw : value) :
  raw = VArray [] \/ raw = VUndefined ->
  validatePath SchemaStringArray [required true; validate Guide.nonEmpty msg] k raw =
  [emptyCollectionError k msg].
Proof. intros [-> | ->]; reflexivity. Qed.

Lemma guide_specializations_in_tree :
  In ("specializations", SchemaStringArray,
      [required true; validate Guide.nonEmpty "At least one specialization is required"])
     (tree (schema Guide.GuideModel)).
Proof. simpl. tauto. Qed.

Lemma guide_languages_in_tree :
  In ("languages", SchemaStringArray,
      [required true; validate Guide.nonEmpty "At least one language is required"])
     (tree (schema Guide.GuideModel)).
Proof. simpl. tauto. Qed.

(** C3.  A Guide creation input whose [specializations] (or [languages]) is
    the empty array, or is absent, is rejected with the error of the schema's
    own validator, "At least one specialization (language) is required", and
    so is an update that supplies the empty array.  Hence in every collection
    that creations and updates can produce from the empty one, every stored
    Guide has at least one specialization and at least one language. *)
Theorem guide_collections_never_empty :
  (forall (now : Z) (input : value) (c : Collection),
     (get input "specializations" = VArray [] \/ get input "specializations" = VUndefined ->
      rejectedWith (create Guide.GuideModel now input c) c
        (emptyCollectionError "specializations" "At least one specialization is required")) /\
     (get input "languages" = VArray [] \/ get input "languages" = VUndefined ->
      rejectedWith (create Guide.GuideModel now input c) c
        (emptyCollectionError "languages" "At least one language is required"))) /\
  (forall (now : Z) (id : nat) (patch doc : value) (c : Collection),
     findById id c = Some doc ->
     (get patch "specializations" = VArray [] ->
      rejectedWith (update Guide.GuideModel now id patch c) c
        (emptyCollectionError "specializations" "At least one specialization is required")) /\
     (get patch "languages" = VArray [] ->
      rejectedWith (update Guide.GuideModel now id patch c) c
        (emptyCollectionError "languages" "At least one language is required"))) /\
  (forall (T : Z) (c : Collection),
     history Guide.GuideModel T c ->
     forall (id : nat) (doc : value),
       findById id c = Some doc ->
       Guide.nonEmpty (get doc "specializations") = true /\
       Guide.nonEmpty (get doc "languages") = true).
Proof.
  split; [|split].
  - intros now input c. split; intros Hraw.
    + apply create_rejectedWith.
      eapply validateSync_path; [apply guide_specializations_in_tree|].
      rewrite empty_or_absent_reported by assumption. now left.
    + apply create_rejectedWith.
      eapply validateSync_path; [apply guide_languages_in_tree|].
      rewrite empty_or_absent_reported by assumption. now left.
  - intros now id patch doc c Hdoc. split; intros Hraw.
    + eapply update_rejectedWith; [exact Hdoc|].
      eapply validateSupplied_path; [apply guide_specializations_in_tree| |].
      * rewrite Hraw. discriminate.
      * rewrite empty_or_absent_reported by (now left). now left.
    + eapply update_rejectedWith; [exact Hdoc|].
      eapply validateSupplied_path; [apply guide_languages_in_tree| |].
      * rewrite Hraw. discriminate.
      * rewrite empty_or_absent_reported by (now left). now left.
  - intros T c Hhist id doc Hdoc. split.
    + eapply (history_path_invariant Guide.GuideModel "specializations" _ _
                (fun v => Guide.nonEmpty v = true) guide_keys_NoDup
                guide_specializations_in_tree); try eassumption; try discriminate.
      intros raw. apply nonEmpty_enforced.
    + eapply (history_path_invariant Guide.GuideModel "languages" _ _
                (fun v => Guide.nonEmpty v = true) guide_keys_NoDup
                guide_languages_in_tree); try eassumption; try discriminate.
      intros raw. apply nonEmpty_enforced.
Qed.

Lemma afterSampleGuide_history : history Guide.GuideModel 1000 afterSampleGuide.
Proof. apply (history_create Guide.GuideModel 0); [apply history_empty | lia]. Qed.

Lemma guide_collections_never_empty_witness :
  rejectedWith (create Guide.GuideModel 1000 guideWithoutLanguages emptyCollection)
    emptyCollection
    (emptyCollectionError "specializations" "At least one specialization is required") /\
  rejectedWith (create Guide.GuideModel 1000 guideWithoutLanguages emptyCollection)
    emptyCollection
    (emptyCollectionError "languages" "At least one language is required") /\
  rejectedWith
    (update Guide.GuideModel 2000 0 (VObject [("languages", VArray [])]) afterSampleGuide)
    afterSampleGuide
    (emptyCollectionError "languages" "At least one language is required") /\
  Guide.nonEmpty (get storedSampleGuide "specializations") = true /\
  Guide.nonEmpty (get storedSampleGuide "languages") = true.
Proof.
  destruct guide_collections_never_empty as (Hcreate & Hupdate & Hinv).
  split; [|split; [|split]].
  - apply (proj1 (Hcreate 1000%Z guideWithoutLanguages emptyCollection)).
    left. reflexivity.
  - apply (proj2 (Hcreate 1000%Z guideWithoutLanguages emptyCollection)).
    right. reflexivity.
  - apply (proj2 (Hupdate 2000%Z 0%nat (VObject [("languages", VArray [])]) storedSampleGuide
                    afterSampleGuide eq_refl)).
    reflexivity.
  - apply (Hinv 1000%Z afterSampleGuide afterSampleGuide_history 0%nat storedSampleGuide).
    reflexivity.
Defined.

(** ** Updates: timestamps and untouched fields *)

Lemma guide_timestamps : timestamps (options (schema Guide.GuideModel)) = true.
Proof. reflexivity. Qed.

Lemma homestay_timestamps : timestamps (options (schema Homestay.HomestayModel)) = true.
Proof. reflexivity. Qed.

Lemma guide_createdAt_not_a_path : ~ In "createdAt" (keysOf (tree (schema Guide.GuideModel))).
Proof. simpl. intuition discriminate. Qed.

Lemma homestay_createdAt_not_a_path :
  ~ In "createdAt" (keysOf (tree (schema Homestay.HomestayModel))).
Proof. simpl. intuition discriminate. Qed.

Section UpdateFrame.

Variable M : Model.
Hypothesis stamped : timestamps (options (schema M)) = true.
Hypothesis createdAt_not_a_path : ~ In "createdAt" (keysOf (tree (schema M))).

Lemma update_keeps_createdAt (now : Z) (id : nat) (patch doc : value) (c : Collection) :
  findById id c = Some doc ->
  exists after : value,
    findById id (fst (update M now id patch c)) = Some after /\
    get after "createdAt" = get doc "createdAt".
Proof.
  unfold findById, update. intros Hdoc. rewrite Hdoc.
  destruct (validateSupplied (schema M) patch); simpl.
  - eexists. split; [apply lookup_insert_eq|].
    rewrite get_stampUpdate by discriminate.
    now apply get_applyPatch_not_a_path.
  - eauto.
Qed.

Lemma update_saved_frame (now : Z) (id : nat) (patch doc doc' : value)
    (c c' : Collection) :
  findById id c = Some doc ->
  update M now id patch c = (c', Saved id doc') ->
  findById id c' = Some doc' /\
  get doc' "createdAt" = get doc "createdAt" /\
  get doc' "updatedAt" = VDate now /\
  (forall k : string,
     k <> "updatedAt" -> get patch k = VUndefined -> get doc' k = get doc k) /\
  (forall id' : nat, id' <> id -> findById id' c' = findById id' c).
Proof.
  intros Hdoc Hupdate. unfold findById in *.
  apply update_saved_inv in Hupdate as (doc0 & Hdoc0 & _ & -> & _ & ->).
  rewrite Hdoc in Hdoc0. injection Hdoc0 as <-. simpl.
  split; [apply lookup_insert_eq|]. split; [|split; [|split]].
  - rewrite get_stampUpdate by discriminate. now apply get_applyPatch_not_a_path.
  - unfold stampUpdate. rewrite stamped. apply get_assign_eq.
  - intros k Hk Habs. rewrite get_stampUpdate by assumption.
    now apply get_applyPatch_unsupplied.
  - intros id' Hne. now apply lookup_insert_ne.
Qed.

Lemma clockHistory_updatedAt (T : Z) (id : nat) (doc : value) (c : Collection) :
  clockHistory M T c ->
  findById id c = Some doc ->
  exists t : Z, get doc "updatedAt" = VDate t /\ (t <= T)%Z.
Proof.
  intros Hhist Hdoc.
  destruct (history_stamps M T c stamped createdAt_not_a_path Hhist id doc Hdoc)
    as (t0 & t & _ & Hu & _ & Ht).
  now exists t.
Qed.

End UpdateFrame.

(** C7, as amended.  For a Guide or Homestay record: no update, accepted or
    rejected, changes [createdAt]; an accepted update sets [updatedAt] to the
    time of the write, leaves every other field the partial input does not
    supply as it was, and leaves every other record as it was.  The new
    [updatedAt] is later than or equal to the previous one when the record
    belongs to a collection built by creations whose inputs carry no
    [createdAt] and by updates, with clock readings that never go back, and
    the update is not before the last of these readings. *)
Theorem update_timestamps_and_frame (M : Model) (now : Z) (id : nat)
    (patch doc : value) (c : Collection) :
  M = Guide.GuideModel \/ M = Homestay.HomestayModel ->
  findById id c = Some doc ->
  (exists after : value,
     findById id (fst (update M now id patch c)) = Some after /\
     get after "createdAt" = get doc "createdAt") /\
  (forall (c' : Collection) (doc' : value),
     update M now id patch c = (c', Saved id doc') ->
     findById id c' = Some doc' /\
     get doc' "createdAt" = get doc "createdAt" /\
     get doc' "updatedAt" = VDate now /\
     (forall k : string,
        k <> "updatedAt" -> get patch k = VUndefined -> get doc' k = get doc k) /\
     (forall id' : nat, id' <> id -> findById id' c' = findById id' c) /\
     (forall T : Z,
        clockHistory M T c -> (T <= now)%Z ->
        exists t : Z,
          get doc "updatedAt" = VDate t /\ get doc' "updatedAt" = VDate now /\
          (t <= now)%Z)).
Proof.
  intros HM Hdoc.
  assert (timestamps (options (schema M)) = true /\
          ~ In "createdAt" (keysOf (tree (schema M)))) as [Hts Hnc].
  { destruct HM as [-> | ->].
    - split; [apply guide_timestamps | apply guide_createdAt_not_a_path].
    - split; [apply homestay_timestamps | apply homestay_createdAt_not_a_path]. }
  split.
  - now apply update_keeps_createdAt.
  - intros c' doc' Hupdate.
    destruct (update_saved_frame M Hts Hnc now id patch doc doc' c c' Hdoc Hupdate)
      as (Hfind & Hc & Hu & Hframe & Hothers).
    split; [exact Hfind|]. split; [exact Hc|]. split; [exact Hu|].
    split; [exact Hframe|]. split; [exact Hothers|].
    intros T Hhist Hle.
    destruct (clockHistory_updatedAt M Hts Hnc T id doc c Hhist Hdoc) as (t & Ht & HtT).
    exists t. split; [exact Ht|]. split; [exact Hu|]. lia.
Qed.

Lemma afterSampleGuide_clockHistory : clockHistory Guide.GuideModel 1000 afterSampleGuide.
Proof.
  apply (clockHistory_create Guide.GuideModel 0 emptyCollection 1000 sampleGuide).
  - apply clockHistory_empty.
  - lia.
  - reflexivity.
Qed.

Lemma update_timestamps_and_frame_witness :
  get updatedSampleGuide "createdAt" = VDate 1000 /\
  get updatedSampleGuide "updatedAt" = VDate 2000 /\
  get updatedSampleGuide "availability" = VString "busy" /\
  get updatedSampleGuide "name" = get storedSampleGuide "name" /\
  (exists t : Z,
     get storedSampleGuide "updatedAt" = VDate t /\
     get updatedSampleGuide "updatedAt" = VDate 2000 /\ (t <= 2000)%Z).
Proof.
  destruct (update_timestamps_and_frame Guide.GuideModel 2000 0 busyPatch
              storedSampleGuide afterSampleGuide (or_introl eq_refl) eq_refl)
    as [_ Hsaved].
  destruct (Hsaved (fst (update Guide.GuideModel 2000 0 busyPatch afterSampleGuide))
              updatedSampleGuide eq_refl) as (_ & Hc & Hu & Hframe & _ & Hlater).
  split; [rewrite Hc; reflexivity|]. split; [exact Hu|]. split; [reflexivity|].
  split; [apply Hframe; [discriminate | reflexivity]|].
  apply (Hlater 1000%Z afterSampleGuide_clockHistory). lia.
Defined.

(** C7, as stated, fails.  A Guide created at time 1000 from an input that
    carries the [createdAt] 5000 is stored with [updatedAt] 5000, and the
    accepted update of time 2000 sets its [updatedAt] to 2000, which is
    earlier; and an update that reads an earlier clock than the creation did,
    500 after 1000, sets an earlier [updatedAt] too. *)
Lemma update_sets_earlier_updatedAt :
  (exists (doc doc' : value) (c' : Collection),
     findById 0 afterGuideDatedAhead = Some doc /\
     get doc "updatedAt" = VDate 5000 /\
     update Guide.GuideModel 2000 0 busyPatch afterGuideDatedAhead = (c', Saved 0 doc') /\
     findById 0 c' = Some doc' /\
     get doc' "updatedAt" = VDate 2000 /\
     (2000 < 5000)%Z) /\
  (exists (doc' : value) (c' : Collection),
     findById 0 afterSampleGuide = Some storedSampleGuide /\
     get storedSampleGuide "updatedAt" = VDate 1000 /\
     update Guide.GuideModel 500 0 busyPatch afterSampleGuide = (c', Saved 0 doc') /\
     findById 0 c' = Some doc' /\
     get doc' "updatedAt" = VDate 500 /\
     (500 < 1000)%Z).
Proof.
  split.
  - eexists. eexists. eexists.
    split; [reflexivity|]. split; [reflexivity|]. split; [reflexivity|].
    split; [reflexivity|]. split; [reflexivity|]. lia.
  - eexists. eexists.
    split; [reflexivity|]. split; [reflexivity|]. split; [reflexivity|].
    split; [reflexivity|]. split; [reflexivity|]. lia.
Qed.

(** ** Homestay status *)

Import TypeScript.

(** An object of an object type has no property outside the members. *)
Lemma typed_object_no_other_property (members : Interface) (props : list (string * value))
    (k : string) :
  hasType (TsObject members) (VObject props) = true ->
  ~ In k (keyof members) ->
  lookupProp k props = VUndefined.
Proof.
  intros Htyped Hk. simpl in Htyped. apply andb_true_iff in Htyped as [Hprops _].
  induction props as [|[k' v] rest IH]; [reflexivity|].
  simpl in Hprops. apply andb_true_iff in Hprops as [Hk' Hrest].
  simpl. destruct (String.eqb_spec k k') as [<- | Hne]; [|now apply IH].
  exfalso. apply Hk. apply existsb_exists in Hk' as (m & Hm & Heq).
  simpl in Heq. apply String.eqb_eq in Heq. rewrite Heq.
  unfold keyof. now apply (in_map (fun m : string * bool * TsType => fst (fst m))).
Qed.

Lemma typed_input_without_status (input : value) :
  hasType (TsObject Homestay.CreateHomestayInput) input = true ->
  get input "status" = VUndefined.
Proof.
  intros Htyped. destruct input; try discriminate. simpl.
  eapply typed_object_no_other_property; [exact Htyped|].
  simpl. intuition discriminate.
Qed.

(** C6.  [CreateHomestayInput] has neither [status] nor the two timestamps
    among its keys, so the record stored for an accepted input of that type
    has status ['active']; the update input does have [status], and an update
    supplying any of [active], [inactive], [pending] is accepted whatever the
    current status is, and stores the new one. *)
Theorem homestay_status_default_and_transitions :
  keyof Homestay.CreateHomestayInput =
    ["title"; "description"; "propertyType"; "location"; "pricing"; "capacity";
     "amenities"; "houseRules"; "images"] /\
  In "status" (keyof Homestay.UpdateHomestayInput) /\
  (forall (now : Z) (input : value) (c c' : Collection) (id : nat) (doc : value),
     hasType (TsObject Homestay.CreateHomestayInput) input = true ->
     create Homestay.HomestayModel now input c = (c', Saved id doc) ->
     get doc "status" = VString "active") /\
  (forall (s1 s2 : string) (now : Z) (id : nat) (doc : value) (c : Collection),
     In s1 Homestay.HomestayStatus ->
     In s2 Homestay.HomestayStatus ->
     findById id c = Some doc ->
     get doc "status" = VString s1 ->
     exists (c' : Collection) (doc' : value),
       update Homestay.HomestayModel now id (statusPatch s2) c = (c', Saved id doc') /\
       findById id c' = Some doc' /\
       get doc' "status" = VString s2).
Proof.
  split; [reflexivity|]. split; [simpl; tauto|]. split.
  - intros now input c c' id doc Htyped Hcreate.
    pose proof (typed_input_without_status input Htyped) as Habsent.
    default_of_path Hcreate Habsent homestay_keys_NoDup SchemaString
      [enum ["active"; "inactive"; "pending"]; default (VString "active")].
  - intros s1 s2 now id doc c _ Hs2 Hdoc _.
    assert (validateSupplied (schema Homestay.HomestayModel) (statusPatch s2) = []) as Hvalid.
    { destruct Hs2 as [<- | [<- | [<- | []]]]; reflexivity. }
    unfold findById in Hdoc. unfold update. rewrite Hdoc, Hvalid.
    eexists. eexists. split; [reflexivity|]. split.
    + unfold findById. simpl. apply lookup_insert_eq.
    + rewrite get_stampUpdate by discriminate.
      apply (get_applyPatch_supplied (schema Homestay.HomestayModel) (statusPatch s2) doc
               "status" SchemaString
               [enum ["active"; "inactive"; "pending"]; default (VString "active")]
               (VString s2) homestay_keys_NoDup).
      * simpl. tauto.
      * reflexivity.
      * reflexivity.
Qed.

Lemma homestay_status_default_and_transitions_witness :
  get storedTypedHomestay "status" = VString "active" /\
  exists (c' : Collection) (doc' : value),
    update Homestay.HomestayModel 2000 0 (statusPatch "pending") afterTypedHomestay
      = (c', Saved 0 doc') /\
    findById 0 c' = Some doc' /\
    get doc' "status" = VString "pending".
Proof.
  destruct homestay_status_default_and_transitions as (_ & _ & Hdefault & Hmove).
  split.
  - apply (Hdefault 1000%Z typedHomestay emptyCollection afterTypedHomestay 0%nat
             storedTypedHomestay); reflexivity.
  - apply (Hmove "active" "pending" 2000%Z 0%nat storedTypedHomestay afterTypedHomestay).
    + left. reflexivity.
    + right. right. left. reflexivity.
    + reflexivity.
    + reflexivity.
Defined.

(** * Further properties of the two schemas *)

Ltac in_tree := simpl; repeat (first [left; reflexivity | right]).

(** ** Text fields *)

(** X1.  For a valid Guide creation input, replacing one text field by the
    string [s] gives exactly these errors: [name] is trimmed, must then be
    non-empty ("Name is required") and at most 100 characters long; [bio] is
    trimmed and must then be non-empty ("Bio is required"); [experience],
    [location.district] and [location.state] are not trimmed and must be
    non-empty, so white space alone passes there. *)
Theorem guide_text_fields (d : value) (s : string) :
  validateSync (schema Guide.GuideModel) d = [] ->
  validateSync (schema Guide.GuideModel) (assign d "name" (VString s)) =
    textErrors "name" (Some "Name is required") true (Some 100) s /\
  validateSync (schema Guide.GuideModel) (assign d "bio" (VString s)) =
    textErrors "bio" (Some "Bio is required") true None s /\
  validateSync (schema Guide.GuideModel) (assign d "experience" (VString s)) =
    textErrors "experience" None false None s /\
  validateSync (schema Guide.GuideModel) (assignIn d "location" "district" (VString s)) =
    textErrors "location.district" None false None s /\
  validateSync (schema Guide.GuideModel) (assignIn d "location" "state" (VString s)) =
    textErrors "location.state" None false None s.
Proof.
  intros Hvalid. split; [|split; [|split; [|split]]].
  - rewrite (valid_assign _ d "name" SchemaString
               [required_msg true "Name is required"; trim true; maxlength 100] _
               guide_keys_NoDup); [apply validatePath_text_bounded | in_tree | assumption | discriminate | discriminate].
  - rewrite (valid_assign _ d "bio" SchemaString
               [required_msg true "Bio is required"; trim true] _
               guide_keys_NoDup); [apply validatePath_text_trimmed | in_tree | assumption | discriminate | discriminate].
  - rewrite (valid_assign _ d "experience" SchemaString [required true] _
               guide_keys_NoDup); [apply validatePath_text_plain | in_tree | assumption | discriminate | discriminate].
  - rewrite (valid_assignIn _ d "location" "district" (tree Guide.locationSchema)
               (options Guide.locationSchema) SchemaString [required true] _
               guide_keys_NoDup);
      [apply validatePath_text_plain | in_tree | apply guide_location_keys_NoDup
       | in_tree | assumption | discriminate | discriminate].
  - rewrite (valid_assignIn _ d "location" "state" (tree Guide.locationSchema)
               (options Guide.locationSchema) SchemaString
               [required true; default (VString "Jharkhand")] _ guide_keys_NoDup);
      [apply validatePath_text_default | in_tree | apply guide_location_keys_NoDup
       | in_tree | assumption | discriminate | discriminate].
Qed.

Lemma guide_text_fields_witness :
  validateSync (schema Guide.GuideModel) (assign sampleGuide "name" (VString "   ")) =
    [requiredErrorWith "name" "Name is required"] /\
  validateSync (schema Guide.GuideModel) (assign sampleGuide "experience" (VString "   ")) = [].
Proof.
  destruct (guide_text_fields sampleGuide "   " eq_refl) as (Hname & _ & Hexp & _).
  split; [exact Hname | exact Hexp].
Defined.

(** X2.  For a valid Homestay creation input, replacing one text field by
    the string [s] gives exactly these errors: [title] is trimmed, must then
    be non-empty ("Title is required") and at most 200 characters long;
    [description] is trimmed and must then be non-empty ("Description is
    required"); [location.address], [location.district] and [location.state]
    are not trimmed and must be non-empty. *)
Theorem homestay_text_fields (d : value) (s : string) :
  validateSync (schema Homestay.HomestayModel) d = [] ->
  validateSync (schema Homestay.HomestayModel) (assign d "title" (VString s)) =
    textErrors "title" (Some "Title is required") true (Some 200) s /\
  validateSync (schema Homestay.HomestayModel) (assign d "description" (VString s)) =
    textErrors "description" (Some "Description is required") true None s /\
  validateSync (schema Homestay.HomestayModel) (assignIn d "location" "address" (VString s)) =
    textErrors "location.address" None false None s /\
  validateSync (schema Homestay.HomestayModel) (assignIn d "location" "district" (VString s)) =
    textErrors "location.district" None false None s /\
  validateSync (schema Homestay.HomestayModel) (assignIn d "location" "state" (VString s)) =
    textErrors "location.state" None false None s.
Proof.
  intros Hvalid. split; [|split; [|split; [|split]]].
  - rewrite (valid_assign _ d "title" SchemaString
               [required_msg true "Title is required"; trim true; maxlength 200] _
               homestay_keys_NoDup); [apply validatePath_text_bounded | in_tree | assumption | discriminate | discriminate].
  - rewrite (valid_assign _ d "description" SchemaString
               [required_msg true "Description is required"; trim true] _
               homestay_keys_NoDup); [apply validatePath_text_trimmed | in_tree | assumption | discriminate | discriminate].
  - rewrite (valid_assignIn _ d "location" "address" (tree Homestay.locationSchema)
               (options Homestay.locationSchema) SchemaString [required true] _
               homestay_keys_NoDup);
      [apply validatePath_text_plain | in_tree | apply homestay_location_keys_NoDup
       | in_tree | assumption | discriminate | discriminate].
  - rewrite (valid_assignIn _ d "location" "district" (tree Homestay.locationSchema)
               (options Homestay.locationSchema) SchemaString [required true] _
               homestay_keys_NoDup);
      [apply validatePath_text_plain | in_tree | apply homestay_location_keys_NoDup
       | in_tree | assumption | discriminate | discriminate].
  - rewrite (valid_assignIn _ d "location" "state" (tree Homestay.locationSchema)
               (options Homestay.locationSchema) SchemaString
               [required true; default (VString "Jharkhand")] _ homestay_keys_NoDup);
      [apply validatePath_text_default | in_tree | apply homestay_location_keys_NoDup
       | in_tree | assumption | discriminate | discriminate].
Qed.

Lemma homestay_text_fields_witness :
  validateSync (schema Homestay.HomestayModel)
    (assign typedHomestay "title" (VString "  Hillside cottage  ")) = [] /\
  validateSync (schema Homestay.HomestayModel)
    (assignIn typedHomestay "location" "address" (VString "")) =
    [requiredError "location.address"].
Proof.
  destruct (homestay_text_fields typedHomestay "  Hillside cottage  " eq_refl)
    as (Htitle & _).
  destruct (homestay_text_fields typedHomestay "" eq_refl) as (_ & _ & Haddress & _).
  split; [exact Htitle | exact Haddress].
Defined.

(** ** Number fields *)

(** X3.  For a valid Guide creation input, a number [n] put in
    [pricing.halfDay] or [pricing.fullDay] leaves the input valid exactly
    when [n >= 0], so zero is accepted; put in [pricing.multiDay] or
    [pricing.workshop] it leaves the input valid exactly when it is not
    [NaN]. *)
Theorem guide_pricing_numbers (d : value) (n : number) :
  validateSync (schema Guide.GuideModel) d = [] ->
  (validateSync (schema Guide.GuideModel) (assignIn d "pricing" "halfDay" (VNumber n)) = []
     <-> geq n (num 0) = true) /\
  (validateSync (schema Guide.GuideModel) (assignIn d "pricing" "fullDay" (VNumber n)) = []
     <-> geq n (num 0) = true) /\
  (validateSync (schema Guide.GuideModel) (assignIn d "pricing" "multiDay" (VNumber n)) = []
     <-> isNaN n = false) /\
  (validateSync (schema Guide.GuideModel) (assignIn d "pricing" "workshop" (VNumber n)) = []
     <-> isNaN n = false).
Proof.
  intros Hvalid.
  assert (List.NoDup (keysOf (tree Guide.pricingSchema))) as Hnd
    by (repeat constructor; simpl; intuition discriminate).
  split; [|split; [|split]].
  - rewrite (valid_assignIn _ d "pricing" "halfDay" (tree Guide.pricingSchema)
               (options Guide.pricingSchema) SchemaNumber [required true; min (num 0)] _
               guide_keys_NoDup); [| in_tree | exact Hnd | in_tree | assumption | discriminate | discriminate].
    rewrite validatePath_bounded_number. apply boundedNumberErrors_nil.
  - rewrite (valid_assignIn _ d "pricing" "fullDay" (tree Guide.pricingSchema)
               (options Guide.pricingSchema) SchemaNumber [required true; min (num 0)] _
               guide_keys_NoDup); [| in_tree | exact Hnd | in_tree | assumption | discriminate | discriminate].
    rewrite validatePath_bounded_number. apply boundedNumberErrors_nil.
  - rewrite (valid_assignIn _ d "pricing" "multiDay" (tree Guide.pricingSchema)
               (options Guide.pricingSchema) SchemaNumber [required false] _
               guide_keys_NoDup); [| in_tree | exact Hnd | in_tree | assumption | discriminate | discriminate].
    rewrite validatePath_free_number. apply freeNumberErrors_nil.
  - rewrite (valid_assignIn _ d "pricing" "workshop" (tree Guide.pricingSchema)
               (options Guide.pricingSchema) SchemaNumber [required false] _
               guide_keys_NoDup); [| in_tree | exact Hnd | in_tree | assumption | discriminate | discriminate].
    rewrite validatePath_free_number. apply freeNumberErrors_nil.
Qed.

Lemma guide_pricing_numbers_witness :
  validateSync (schema Guide.GuideModel)
    (assignIn sampleGuide "pricing" "halfDay" (VNumber (num 0))) = [].
Proof.
  apply (proj1 (guide_pricing_numbers sampleGuide (num 0) eq_refl)). reflexivity.
Defined.

(** X4.  For a valid Homestay creation input, a number [n] put in
    [pricing.basePrice] leaves the input valid exactly when [n >= 100]; put in
    a capacity field, exactly when it is at least the bound of that field
    (1 for guests and beds, 0 for bedrooms and bathrooms); put in
    [pricing.cleaningFee] or [pricing.weekendPrice], exactly when it is not
    [NaN].  No field has an upper bound. *)
Theorem homestay_numbers (d : value) (n : number) :
  validateSync (schema Homestay.HomestayModel) d = [] ->
  (validateSync (schema Homestay.HomestayModel)
     (assignIn d "pricing" "basePrice" (VNumber n)) = [] <-> geq n (num 100) = true) /\
  (forall (k : string) (bound : number),
     capacityBound k = Some bound ->
     (validateSync (schema Homestay.HomestayModel)
        (assignIn d "capacity" k (VNumber n)) = [] <-> geq n bound = true)) /\
  (validateSync (schema Homestay.HomestayModel)
     (assignIn d "pricing" "cleaningFee" (VNumber n)) = [] <-> isNaN n = false) /\
  (validateSync (schema Homestay.HomestayModel)
     (assignIn d "pricing" "weekendPrice" (VNumber n)) = [] <-> isNaN n = false).
Proof.
  intros Hvalid. split; [|split; [|split]].
  - rewrite (valid_assignIn _ d "pricing" "basePrice" (tree Homestay.pricingSchema)
               (options Homestay.pricingSchema) SchemaNumber [required true; min (num 100)] _
               homestay_keys_NoDup);
      [| in_tree | apply homestay_pricing_keys_NoDup | in_tree | assumption | discriminate | discriminate].
    rewrite validatePath_bounded_number. apply boundedNumberErrors_nil.
  - intros k bound Hk.
    rewrite (valid_assignIn _ d "capacity" k (tree Homestay.capacitySchema)
               (options Homestay.capacitySchema) SchemaNumber [required true; min bound] _
               homestay_keys_NoDup);
      [| in_tree | apply homestay_capacity_keys_NoDup
       | now apply capacityBound_in_tree | assumption | discriminate | discriminate].
    rewrite validatePath_bounded_number. apply boundedNumberErrors_nil.
  - rewrite (valid_assignIn _ d "pricing" "cleaningFee" (tree Homestay.pricingSchema)
               (options Homestay.pricingSchema) SchemaNumber [required false] _
               homestay_keys_NoDup);
      [| in_tree | apply homestay_pricing_keys_NoDup | in_tree | assumption | discriminate | discriminate].
    rewrite validatePath_free_number. apply freeNumberErrors_nil.
  - rewrite (valid_assignIn _ d "pricing" "weekendPrice" (tree Homestay.pricingSchema)
               (options Homestay.pricingSchema) SchemaNumber [required false] _
               homestay_keys_NoDup);
      [| in_tree | apply homestay_pricing_keys_NoDup | in_tree | assumption | discriminate | discriminate].
    rewrite validatePath_free_number. apply freeNumberErrors_nil.
Qed.

Lemma homestay_numbers_witness :
  validateSync (schema Homestay.HomestayModel)
    (assignIn typedHomestay "pricing" "basePrice" (VNumber Infinity)) = [] /\
  validateSync (schema Homestay.HomestayModel)
    (assignIn typedHomestay "capacity" "bedrooms" (VNumber (num 0))) = [].
Proof.
  destruct (homestay_numbers typedHomestay Infinity eq_refl) as (Hprice & _).
  destruct (homestay_numbers typedHomestay (num 0) eq_refl) as (_ & Hcap & _).
  split.
  - apply Hprice. reflexivity.
  - apply (Hcap "bedrooms" (num 0) eq_refl). reflexivity.
Defined.

(** ** Array fields *)

(** X5.  For a valid creation input, replacing an array field by the array of
    the strings [l]: on a Guide, [specializations] and [languages] give the
    error of the schema's validator when [l] is empty and none otherwise,
    while [certifications] is accepted also when empty; on a Homestay,
    [amenities], [houseRules] and [images] are accepted also when empty. *)
Theorem array_fields (l : list string) :
  (forall d : value,
     validateSync (schema Guide.GuideModel) d = [] ->
     validateSync (schema Guide.GuideModel) (assign d "specializations" (stringArray l)) =
       match l with
       | [] => [emptyCollectionError "specializations"
                  "At least one specialization is required"]
       | _ => []
       end /\
     validateSync (schema Guide.GuideModel) (assign d "languages" (stringArray l)) =
       match l with
       | [] => [emptyCollectionError "languages" "At least one language is required"]
       | _ => []
       end /\
     validateSync (schema Guide.GuideModel) (assign d "certifications" (stringArray l)) = []) /\
  (forall d : value,
     validateSync (schema Homestay.HomestayModel) d = [] ->
     validateSync (schema Homestay.HomestayModel) (assign d "amenities" (stringArray l)) = [] /\
     validateSync (schema Homestay.HomestayModel) (assign d "houseRules" (stringArray l)) = [] /\
     validateSync (schema Homestay.HomestayModel) (assign d "images" (stringArray l)) = []).
Proof.
  assert (forall (msg p : string),
            validatePath SchemaStringArray [required true; validate Guide.nonEmpty msg] p
              (stringArray l) =
            match l with [] => [emptyCollectionError p msg] | _ => [] end) as Hrequired.
  { intros msg p. cbn [validatePath]. rewrite hydrate_stringArray.
    destruct l; reflexivity. }
  split; intros d Hvalid.
  - split; [|split].
    + rewrite (valid_assign _ d "specializations" SchemaStringArray
                 [required true;
                  validate Guide.nonEmpty "At least one specialization is required"] _
                 guide_keys_NoDup); [apply Hrequired | in_tree | assumption | discriminate | discriminate].
    + rewrite (valid_assign _ d "languages" SchemaStringArray
                 [required true; validate Guide.nonEmpty "At least one language is required"] _
                 guide_keys_NoDup); [apply Hrequired | in_tree | assumption | discriminate | discriminate].
    + rewrite (valid_assign _ d "certifications" SchemaStringArray [required false] _
                 guide_keys_NoDup);
        [now apply validatePath_free_array | in_tree | assumption | discriminate | discriminate].
  - split; [|split].
    + rewrite (valid_assign _ d "amenities" SchemaStringArray [default (VArray [])] _
                 homestay_keys_NoDup);
        [now apply validatePath_free_array | in_tree | assumption | discriminate | discriminate].
    + rewrite (valid_assign _ d "houseRules" SchemaStringArray [required false] _
                 homestay_keys_NoDup);
        [now apply validatePath_free_array | in_tree | assumption | discriminate | discriminate].
    + rewrite (valid_assign _ d "images" SchemaStringArray [default (VArray [])] _
                 homestay_keys_NoDup);
        [now apply validatePath_free_array | in_tree | assumption | discriminate | discriminate].
Qed.

Lemma array_fields_witness :
  validateSync (schema Guide.GuideModel) (assign sampleGuide "certifications" (stringArray [])) = [] /\
  validateSync (schema Homestay.HomestayModel)
    (assign typedHomestay "houseRules" (stringArray ["No smoking"])) = [].
Proof.
  split.
  - apply (proj1 (array_fields []) sampleGuide eq_refl).
  - apply (proj2 (array_fields ["No smoking"]) typedHomestay eq_refl).
Defined.

(** ** Required paths *)

Ltac at_path H :=
  match type of H with
  | get _ ?k = _ => eapply (validateSync_path _ _ k); [in_tree |]
  end.

Ltac missing_top Habsent :=
  apply create_rejectedWith; at_path Habsent; rewrite Habsent; left; reflexivity.

Ltac missing_child Hobject Habsent k2 t o :=
  apply create_rejectedWith; at_path Hobject;
  rewrite Hobject;
  apply (validatePath_child _ _ _ _ _ k2 t o); [in_tree |];
  rewrite Habsent; left; reflexivity.

(** X6.  A Guide creation input that leaves out [name], [bio], [experience],
    [location] or [pricing] is rejected with the required error of that path
    (with the schema's message for [name] and [bio]); so is one whose
    [location] object has no [district], or whose [pricing] object has no
    [halfDay] or no [fullDay], with the error named [location.district],
    [pricing.halfDay] or [pricing.fullDay].  Nothing is written. *)
Theorem guide_required_paths (now : Z) (input : value) (c : Collection) :
  (forall k : string,
     In k ["name"; "bio"; "experience"; "location"; "pricing"] ->
     get input k = VUndefined ->
     rejectedWith (create Guide.GuideModel now input c) c
       {| path := k; kind := Kind_required; message := guideRequiredMessage k |}) /\
  (forall (k1 k2 : string) (props : list (string * value)),
     In (k1, k2) [("location", "district"); ("pricing", "halfDay"); ("pricing", "fullDay")] ->
     get input k1 = VObject props ->
     lookupProp k2 props = VUndefined ->
     rejectedWith (create Guide.GuideModel now input c) c
       (requiredError (k1 ++ "." ++ k2))).
Proof.
  split.
  - intros k Hk Habsent.
    destruct Hk as [<- | [<- | [<- | [<- | [<- | []]]]]]; missing_top Habsent.
  - intros k1 k2 props Hk Hobject Habsent.
    destruct Hk as [[= <- <-] | [[= <- <-] | [[= <- <-] | []]]].
    + missing_child Hobject Habsent "district" SchemaString [required true].
    + missing_child Hobject Habsent "halfDay" SchemaNumber [required true; min (num 0)].
    + missing_child Hobject Habsent "fullDay" SchemaNumber [required true; min (num 0)].
Qed.

Lemma guide_required_paths_witness :
  rejectedWith (create Guide.GuideModel 1000 guideWithoutLanguages emptyCollection)
    emptyCollection (requiredErrorWith "bio" "Bio is required") /\
  rejectedWith (create Guide.GuideModel 1000 guideNegativeHalfDay emptyCollection)
    emptyCollection (requiredError "location").
Proof.
  destruct (guide_required_paths 1000 guideWithoutLanguages emptyCollection) as [H1 _].
  destruct (guide_required_paths 1000 guideNegativeHalfDay emptyCollection) as [H2 _].
  split.
  - apply (H1 "bio"); [right; left; reflexivity | reflexivity].
  - apply (H2 "location"); [right; right; right; left; reflexivity | reflexivity].
Defined.

(** X7.  A Homestay creation input that leaves out [title], [description],
    [location], [pricing] or [capacity] is rejected with the required error of
    that path; so is one whose [location] has no [address] or no [district],
    whose [pricing] has no [basePrice], or whose [capacity] lacks one of its
    four numbers.  [location.coordinates] may be left out, but a coordinates
    object without [lat] or without [lng] is rejected, with the error named
    [location.coordinates.lat] or [location.coordinates.lng], while one with
    two finite numbers keeps a valid input valid. *)
Theorem homestay_required_paths (now : Z) (input : value) (c : Collection) :
  (forall k : string,
     In k ["title"; "description"; "location"; "pricing"; "capacity"] ->
     get input k = VUndefined ->
     rejectedWith (create Homestay.HomestayModel now input c) c
       {| path := k; kind := Kind_required; message := homestayRequiredMessage k |}) /\
  (forall (k1 k2 : string) (props : list (string * value)),
     In (k1, k2) [("location", "address"); ("location", "district");
                  ("pricing", "basePrice");
                  ("capacity", "guests"); ("capacity", "bedrooms");
                  ("capacity", "beds"); ("capacity", "bathrooms")] ->
     get input k1 = VObject props ->
     lookupProp k2 props = VUndefined ->
     rejectedWith (create Homestay.HomestayModel now input c) c
       (requiredError (k1 ++ "." ++ k2))) /\
  (forall (k : string) (loc co : list (string * value)),
     In k ["lat"; "lng"] ->
     get input "location" = VObject loc ->
     lookupProp "coordinates" loc = VObject co ->
     lookupProp k co = VUndefined ->
     rejectedWith (create Homestay.HomestayModel now input c) c
       (requiredError ("location.coordinates." ++ k))) /\
  (forall d : value,
     validateSync (schema Homestay.HomestayModel) d = [] ->
     validateSync (schema Homestay.HomestayModel)
       (assignIn d "location" "coordinates" VUndefined) = [] /\
     forall q1 q2 : Q,
       validateSync (schema Homestay.HomestayModel)
         (assignIn d "location" "coordinates" (coordinates (Finite q1) (Finite q2))) = []).
Proof.
  split; [|split; [|split]]; cycle 3.
  { intros d Hvalid.
    assert (forall v : value,
              validateSync (schema Homestay.HomestayModel)
                (assignIn d "location" "coordinates" v) =
              validatePath (subdocument Homestay.coordinatesSchema) [required false]
                "location.coordinates" v) as Hco.
    { intros v.
      apply (valid_assignIn _ d "location" "coordinates" (tree Homestay.locationSchema)
               (options Homestay.locationSchema) _ _ v homestay_keys_NoDup);
        [in_tree | apply homestay_location_keys_NoDup | in_tree | assumption | discriminate | discriminate]. }
    split; [|intros q1 q2]; rewrite Hco; reflexivity. }
  - intros k Hk Habsent.
    destruct Hk as [<- | [<- | [<- | [<- | [<- | []]]]]]; missing_top Habsent.
  - intros k1 k2 props Hk Hobject Habsent.
    destruct Hk as [[= <- <-] | [[= <- <-] | [[= <- <-] | [[= <- <-] | [[= <- <-]
                   | [[= <- <-] | [[= <- <-] | []]]]]]]].
    + missing_child Hobject Habsent "address" SchemaString [required true].
    + missing_child Hobject Habsent "district" SchemaString [required true].
    + missing_child Hobject Habsent "basePrice" SchemaNumber [required true; min (num 100)].
    + missing_child Hobject Habsent "guests" SchemaNumber [required true; min (num 1)].
    + missing_child Hobject Habsent "bedrooms" SchemaNumber [required true; min (num 0)].
    + missing_child Hobject Habsent "beds" SchemaNumber [required true; min (num 1)].
    + missing_child Hobject Habsent "bathrooms" SchemaNumber [required true; min (num 0)].
  - intros k loc co Hk Hloc Hco Habsent.
    apply create_rejectedWith. at_path Hloc.
    rewrite Hloc.
    apply (validatePath_child _ _ _ _ _ "coordinates"
             (subdocument Homestay.coordinatesSchema) [required false]); [in_tree |].
    rewrite Hco.
    apply (validatePath_child _ _ _ _ _ k SchemaNumber [required true]).
    + destruct Hk as [<- | [<- | []]]; in_tree.
    + rewrite Habsent. destruct Hk as [<- | [<- | []]]; left; reflexivity.
Qed.

Lemma homestay_required_paths_witness :
  rejectedWith (create Homestay.HomestayModel 1000 homestayNoBeds emptyCollection)
    emptyCollection (requiredErrorWith "title" "Title is required") /\
  rejectedWith (create Homestay.HomestayModel 1000 homestayHalfCoordinates emptyCollection)
    emptyCollection (requiredError "location.coordinates.lng").
Proof.
  destruct (homestay_required_paths 1000 homestayNoBeds emptyCollection) as [H1 _].
  destruct (homestay_required_paths 1000 homestayHalfCoordinates emptyCollection)
    as (_ & _ & H3 & _).
  split.
  - apply (H1 "title"); [left; reflexivity | reflexivity].
  - apply (H3 "lng" (propsOf (get homestayHalfCoordinates "location"))
             [("lat", VNumber (num 23))]);
      [right; left; reflexivity | reflexivity | reflexivity | reflexivity].
Defined.

(** ** Reading back what was created *)

Ltac keys_NoDup := repeat constructor; simpl; intuition discriminate.

Ltac stored_as_supplied Hcreate nd Htyped :=
  match goal with
  | |- get (get _ ?k1) ?k2 = _ =>
      eapply eq_trans;
      [ eapply (created_child_leaf _ _ _ _ _ _ _ k1 k2);
        [exact Hcreate | exact nd | in_tree | discriminate | discriminate
         | keys_NoDup | in_tree | exact Htyped]
      | apply applySetters_untrimmed; reflexivity ]
  | |- get _ ?k = _ =>
      eapply eq_trans;
      [ eapply (created_leaf _ _ _ _ _ _ _ k);
        [exact Hcreate | exact nd | in_tree | discriminate | discriminate | exact Htyped]
      | apply applySetters_untrimmed; reflexivity ]
  end.

Ltac stored_trimmed Hcreate nd Hs :=
  match goal with
  | |- get _ ?k = _ =>
      eapply eq_trans;
      [ eapply (created_leaf _ _ _ _ _ _ _ k);
        [exact Hcreate | exact nd | in_tree | discriminate | discriminate
         | rewrite Hs; reflexivity]
      | rewrite Hs; reflexivity ]
  end.

(** X8.  The record [Model.create] returns for an accepted Guide input is the
    one found under the returned identifier; its [updatedAt] equals its
    [createdAt], which is the time of the write when the input carries no
    [createdAt] and the date the input carries otherwise; [name] and [bio]
    hold the supplied strings trimmed; every other field supplied with a
    value of its type (a string, a number, an array of strings) holds that
    value unchanged. *)
Theorem guide_create_read_back (now : Z) (input : value) (c c' : Collection)
    (id : nat) (doc : value) :
  create Guide.GuideModel now input c = (c', Saved id doc) ->
  findById id c' = Some doc /\
  get doc "updatedAt" = get doc "createdAt" /\
  (get input "createdAt" = VUndefined -> get doc "createdAt" = VDate now) /\
  (forall t : Z, get input "createdAt" = VDate t -> get doc "createdAt" = VDate t) /\
  (forall s : string, get input "name" = VString s -> get doc "name" = VString (jsTrim s)) /\
  (forall s : string, get input "bio" = VString s -> get doc "bio" = VString (jsTrim s)) /\
  (forall (k : string) (t : SchemaType),
     In (k, t) [("experience", SchemaString); ("specializations", SchemaStringArray);
                ("languages", SchemaStringArray); ("certifications", SchemaStringArray);
                ("availability", SchemaString)] ->
     leafTyped t (get input k) = true ->
     get doc k = get input k) /\
  (forall (k1 k2 : string) (t : SchemaType),
     In (k1, k2, t) [("location", "district", SchemaString);
                     ("location", "state", SchemaString);
                     ("pricing", "halfDay", SchemaNumber);
                     ("pricing", "fullDay", SchemaNumber);
                     ("pricing", "multiDay", SchemaNumber);
                     ("pricing", "workshop", SchemaNumber)] ->
     leafTyped t (get (get input k1) k2) = true ->
     get (get doc k1) k2 = get (get input k1) k2).
Proof.
  intros Hcreate.
  destruct (created_stamps _ _ _ _ _ _ _ guide_timestamps Hcreate) as (Hfind & Hc & Hu).
  split; [exact Hfind|]. split; [now rewrite Hc, Hu|].
  split; [intros Hplain; now rewrite Hc, (createdAtOf_clock now input Hplain)|].
  split; [intros t Ht; now rewrite Hc, (createdAtOf_supplied now t input Ht)|].
  split; [|split; [|split]].
  - intros s Hs. stored_trimmed Hcreate guide_keys_NoDup Hs.
  - intros s Hs. stored_trimmed Hcreate guide_keys_NoDup Hs.
  - intros k t Hk Htyped.
    destruct Hk as [[= <- <-] | [[= <- <-] | [[= <- <-] | [[= <- <-] | [[= <- <-] | []]]]]];
      stored_as_supplied Hcreate guide_keys_NoDup Htyped.
  - intros k1 k2 t Hk Htyped.
    destruct Hk as [[= <- <- <-] | [[= <- <- <-] | [[= <- <- <-] | [[= <- <- <-]
                   | [[= <- <- <-] | [[= <- <- <-] | []]]]]]];
      stored_as_supplied Hcreate guide_keys_NoDup Htyped.
Qed.

Lemma guide_create_read_back_witness :
  findById 0 afterSampleGuide = Some storedSampleGuide /\
  get storedSampleGuide "createdAt" = VDate 1000 /\
  get storedSampleGuide "updatedAt" = get storedSampleGuide "createdAt" /\
  get storedSampleGuide "languages" = VArray [VString "Hindi"; VString "Mundari"] /\
  get (get storedSampleGuide "pricing") "fullDay" = VNumber (num 1500).
Proof.
  destruct (guide_create_read_back 1000 sampleGuide emptyCollection afterSampleGuide
              0 storedSampleGuide eq_refl)
    as (Hfind & Hu & Hclock & _ & _ & _ & Htop & Hnested).
  split; [exact Hfind|]. split; [exact (Hclock eq_refl)|]. split; [exact Hu|]. split.
  - apply (Htop "languages" SchemaStringArray);
      [right; right; left; reflexivity | reflexivity].
  - apply (Hnested "pricing" "fullDay" SchemaNumber);
      [right; right; right; left; reflexivity | reflexivity].
Defined.

Lemma homestay_coordinates_keys_NoDup :
  List.NoDup (keysOf (tree Homestay.coordinatesSchema)).
Proof. keys_NoDup. Qed.

Lemma homestay_created_coordinate (now : Z) (input : value) (c c' : Collection)
    (id : nat) (doc : value) (k : string) (n : number) :
  create Homestay.HomestayModel now input c = (c', Saved id doc) ->
  In k ["lat"; "lng"] ->
  get (get (get input "location") "coordinates") k = VNumber n ->
  get (get (get doc "location") "coordinates") k = VNumber n.
Proof.
  intros Hcreate Hk Hn.
  destruct (created_child_valid _ _ _ _ _ _ _ "location" "coordinates"
              (tree Homestay.locationSchema) (options Homestay.locationSchema)
              (subdocument Homestay.coordinatesSchema) [required false]
              Hcreate homestay_keys_NoDup) as [Hget Hvalid];
    [in_tree | discriminate | discriminate | apply homestay_location_keys_NoDup | in_tree |].
  destruct (get (get input "location") "coordinates") as [| | | | |co] eqn:Hco;
    try discriminate.
  assert (In (k, SchemaNumber, [required true]) (tree Homestay.coordinatesSchema)) as Hin
    by (destruct Hk as [<- | [<- | []]]; in_tree).
  pose proof (valid_child _ _ _ _ _ _ _ _ Hvalid Hin) as Hleaf.
  simpl in Hn. rewrite Hn, validatePath_free_number in Hleaf.
  apply freeNumberErrors_nil in Hleaf.
  rewrite Hget. unfold subdocument. rewrite hydrate_object. cbn [stored get].
  rewrite (lookup_hydrateProps _ _ _ _ _ homestay_coordinates_keys_NoDup Hin).
  rewrite Hn. simpl. now rewrite Hleaf.
Qed.

(** X9.  The record [Model.create] returns for an accepted Homestay input is
    the one found under the returned identifier; its [updatedAt] equals its
    [createdAt], which is the time of the write when the input carries no
    [createdAt] and the date the input carries otherwise; [title] and
    [description] hold the supplied strings trimmed; every other field
    supplied with a value of its type holds that value unchanged, the two
    coordinates included. *)
Theorem homestay_create_read_back (now : Z) (input : value) (c c' : Collection)
    (id : nat) (doc : value) :
  create Homestay.HomestayModel now input c = (c', Saved id doc) ->
  findById id c' = Some doc /\
  get doc "updatedAt" = get doc "createdAt" /\
  (get input "createdAt" = VUndefined -> get doc "createdAt" = VDate now) /\
  (forall t : Z, get input "createdAt" = VDate t -> get doc "createdAt" = VDate t) /\
  (forall s : string, get input "title" = VString s -> get doc "title" = VString (jsTrim s)) /\
  (forall s : string,
     get input "description" = VString s -> get doc "description" = VString (jsTrim s)) /\
  (forall (k : string) (t : SchemaType),
     In (k, t) [("propertyType", SchemaString); ("amenities", SchemaStringArray);
                ("houseRules", SchemaStringArray); ("images", SchemaStringArray);
                ("status", SchemaString)] ->
     leafTyped t (get input k) = true ->
     get doc k = get input k) /\
  (forall (k1 k2 : string) (t : SchemaType),
     In (k1, k2, t) [("location", "address", SchemaString);
                     ("location", "district", SchemaString);
                     ("location", "state", SchemaString);
                     ("pricing", "basePrice", SchemaNumber);
                     ("pricing", "cleaningFee", SchemaNumber);
                     ("pricing", "weekendPrice", SchemaNumber);
                     ("capacity", "guests", SchemaNumber);
                     ("capacity", "bedrooms", SchemaNumber);
                     ("capacity", "beds", SchemaNumber);
                     ("capacity", "bathrooms", SchemaNumber)] ->
     leafTyped t (get (get input k1) k2) = true ->
     get (get doc k1) k2 = get (get input k1) k2) /\
  (forall (k : string) (n : number),
     In k ["lat"; "lng"] ->
     get (get (get input "location") "coordinates") k = VNumber n ->
     get (get (get doc "location") "coordinates") k = VNumber n).
Proof.
  intros Hcreate.
  destruct (created_stamps _ _ _ _ _ _ _ homestay_timestamps Hcreate) as (Hfind & Hc & Hu).
  split; [exact Hfind|]. split; [now rewrite Hc, Hu|].
  split; [intros Hplain; now rewrite Hc, (createdAtOf_clock now input Hplain)|].
  split; [intros t Ht; now rewrite Hc, (createdAtOf_supplied now t input Ht)|].
  split; [|split; [|split; [|split]]].
  - intros s Hs. stored_trimmed Hcreate homestay_keys_NoDup Hs.
  - intros s Hs. stored_trimmed Hcreate homestay_keys_NoDup Hs.
  - intros k t Hk Htyped.
    destruct Hk as [[= <- <-] | [[= <- <-] | [[= <- <-] | [[= <- <-] | [[= <- <-] | []]]]]];
      stored_as_supplied Hcreate homestay_keys_NoDup Htyped.
  - intros k1 k2 t Hk Htyped.
    destruct Hk as [[= <- <- <-] | [[= <- <- <-] | [[= <- <- <-] | [[= <- <- <-]
                   | [[= <- <- <-] | [[= <- <- <-] | [[= <- <- <-] | [[= <- <- <-]
                   | [[= <- <- <-] | [[= <- <- <-] | []]]]]]]]]]];
      stored_as_supplied Hcreate homestay_keys_NoDup Htyped.
  - intros k n. now apply (homestay_created_coordinate now input c c' id doc).
Qed.

Lemma homestay_create_read_back_witness :
  get (get (get (stampNew (schema Homestay.HomestayModel) 1000 homestayOutOfRange
                   (newDocument (schema Homestay.HomestayModel) homestayOutOfRange))
              "location") "coordinates") "lat" = VNumber (num 1000) /\
  get (stampNew (schema Homestay.HomestayModel) 1000 homestayOutOfRange
         (newDocument (schema Homestay.HomestayModel) homestayOutOfRange)) "title"
    = VString "Hillside cottage" /\
  get (stampNew (schema Homestay.HomestayModel) 1000 homestayOutOfRange
         (newDocument (schema Homestay.HomestayModel) homestayOutOfRange)) "createdAt"
    = VDate 1000.
Proof.
  destruct (homestay_create_read_back 1000 homestayOutOfRange emptyCollection
              (fst (create Homestay.HomestayModel 1000 homestayOutOfRange emptyCollection))
              0 _ eq_refl) as (_ & _ & Hclock & _ & Htitle & _ & _ & _ & Hco).
  split; [|split].
  - apply (Hco "lat"); [left; reflexivity | reflexivity].
  - apply (Htitle "Hillside cottage"). reflexivity.
  - apply Hclock. reflexivity.
Defined.

(** ** What every created record satisfies *)








(** ** Index fields *)

(** X12.  Every field of every index the two files declare names a leaf path
    of its schema ([location.district] and [pricing.basePrice] through the
    subdocument), and the fields of the two text indexes are string paths. *)
Theorem index_fields_are_paths :
  forallb (forallb (indexFieldOk (schema Guide.GuideModel)))
          (indexes (schema Guide.GuideModel)) = true /\
  forallb (forallb (indexFieldOk (schema Homestay.HomestayModel)))
          (indexes (schema Homestay.HomestayModel)) = true /\
  indexedType (schema Guide.GuideModel) "specializations" = Some SchemaStringArray /\
  indexedType (schema Guide.GuideModel) "location.district" = Some SchemaString /\
  indexedType (schema Homestay.HomestayModel) "pricing.basePrice" = Some SchemaNumber /\
  indexedType (schema Homestay.HomestayModel) "location.city" = None.
Proof. repeat split; reflexivity. Qed.

(** ** Input types *)

Lemma forallb_weaken {A : Type} (f g : A -> bool) (l : list A) :
  (forall x, f x = true -> g x = true) ->
  forallb f l = true -> forallb g l = true.
Proof.
  intros Hfg. induction l as [|x l IH]; simpl; [reflexivity|].
  intros H. apply andb_true_iff in H as [Hx Hl].
  apply andb_true_iff. split; [now apply Hfg | now apply IH].
Qed.

Lemma existsb_key (k : string) (T : Interface) :
  existsb (fun m : string * bool * TsType => String.eqb k (fst (fst m))) T = true <->
  In k (keyof T).
Proof.
  split.
  - intros H. apply existsb_exists in H as (m & Hm & Heq).
    apply String.eqb_eq in Heq. subst k. unfold keyof.
    now apply (in_map (fun m : string * bool * TsType => fst (fst m))).
  - intros H. unfold keyof in H. apply in_map_iff in H as (m & <- & Hm).
    apply existsb_exists. exists m. split; [assumption | apply String.eqb_refl].
Qed.

(** An object of type [T1] is of type [T2] when every key of [T1] is a key of
    [T2] and every member of [T2] is either a member of [T1] that is no less
    optional there, or optional and no key of [T1]. *)
Lemma hasType_object_widen (T1 T2 : Interface) (props : list (string * value)) :
  (forall k, In k (keyof T1) -> In k (keyof T2)) ->
  (forall k opt2 t,
     In (k, opt2, t) T2 ->
     (exists opt1, In (k, opt1, t) T1 /\ (opt1 = true -> opt2 = true)) \/
     (~ In k (keyof T1) /\ opt2 = true)) ->
  hasType (TsObject T1) (VObject props) = true ->
  hasType (TsObject T2) (VObject props) = true.
Proof.
  intros Hkeys Hmembers Htyped.
  pose proof Htyped as Hboth. simpl in Hboth.
  apply andb_true_iff in Hboth as [Hprops Hm1].
  simpl. apply andb_true_iff. split.
  - revert Hprops. apply forallb_weaken. intros kv Hkv.
    apply existsb_key. apply Hkeys. now apply existsb_key.
  - apply forallb_forall. intros [[k opt2] t] Hin.
    destruct (Hmembers _ _ _ Hin) as [(opt1 & Hin1 & Hopt) | [Hnot ->]].
    + rewrite forallb_forall in Hm1. specialize (Hm1 _ Hin1). simpl in Hm1.
      destruct (lookupProp k props); try exact Hm1. now apply Hopt.
    + now rewrite (typed_object_no_other_property T1 props k Htyped Hnot).
Qed.

Ltac member_cases :=
  intros k opt2 t Hin; simpl in Hin;
  repeat match goal with
         | H : _ \/ _ |- _ => destruct H as [H | H]
         | H : False |- _ => destruct H
         end;
  injection Hin as <- <- <-;
  first [ left; eexists; split; [solve [in_tree] | intros; reflexivity]
        | right; split; [simpl; intuition discriminate | reflexivity] ].

(** X13.  Every value of type [CreateGuideInput] is of type
    [UpdateGuideInput], and every value of type [CreateHomestayInput] is of
    type [UpdateHomestayInput]; the empty object is of both update types and
    of neither creation type; [{ status: 'pending' }] is an
    [UpdateHomestayInput]. *)
Theorem creation_inputs_are_update_inputs (v : value) :
  (hasType (TsObject Guide.CreateGuideInput) v = true ->
   hasType (TsObject Guide.UpdateGuideInput) v = true) /\
  (hasType (TsObject Homestay.CreateHomestayInput) v = true ->
   hasType (TsObject Homestay.UpdateHomestayInput) v = true) /\
  hasType (TsObject Guide.UpdateGuideInput) (VObject []) = true /\
  hasType (TsObject Homestay.UpdateHomestayInput) (VObject []) = true /\
  hasType (TsObject Guide.CreateGuideInput) (VObject []) = false /\
  hasType (TsObject Homestay.CreateHomestayInput) (VObject []) = false /\
  hasType (TsObject Homestay.UpdateHomestayInput) (statusPatch "pending") = true.
Proof.
  split; [|split;
    [|split; [reflexivity|]; split; [reflexivity|]; split; [reflexivity|];
      split; reflexivity]].
  - destruct v; try discriminate.
    apply hasType_object_widen.
    + intros k Hk. exact Hk.
    + member_cases.
  - destruct v; try discriminate.
    apply hasType_object_widen.
    + intros k Hk. simpl in *. tauto.
    + member_cases.
Qed.

Lemma creation_inputs_are_update_inputs_witness :
  hasType (TsObject Homestay.UpdateHomestayInput) typedHomestay = true /\
  hasType (TsObject Guide.UpdateGuideInput) guideNegativeMultiDay = true.
Proof.
  split.
  - apply (proj1 (proj2 (creation_inputs_are_update_inputs typedHomestay))). reflexivity.
  - apply (proj1 (creation_inputs_are_update_inputs guideNegativeMultiDay)). reflexivity.
Defined.
